(** * LessonPlanner-AI: TOC detection, chapter store and chapter extraction

    A shallow embedding of [app.py] (the primary Streamlit pipeline) and of
    the chapter store and the TOC detection of [app1.py] (the other
    pipeline, which shares [chapters.db]), followed by the properties of the
    specification that were checked against them.

    Modelling conventions.
    - Python [int] is [Z]; [str] is [string], a character being a code point
      below 256.
    - A font size (a PyMuPDF float) is a rational [Q]: the code only compares
      sizes, negates them and tests them for equality, and every finite float
      is a rational.
    - The PDF document is the list of its pages as PyMuPDF presents them.
    - The [chapters] table of [chapters.db] is the list of its rows in rowid
      order.
    - A call that changes the table gives the table after the call and the
      exception that left it, if any; a statement that fails leaves the
      transaction uncommitted, and the table as it was.
    - An uncaught exception is a [Raise] result; the messages shown through
      [st.error] are collected in a list.  The [print] calls that only write
      to standard output are left out. *)

From Stdlib Require Import ZArith QArith List String Ascii Bool Lia Permutation.
From Stdlib Require Import DecimalString Sorted.
Import ListNotations.

Local Open Scope string_scope.
Local Open Scope list_scope.
Local Open Scope Z_scope.

(* ================================================================== *)
(** * The fragment of Python used by the two scripts *)

Module Py.

(** ** Exceptions and results *)

Inductive exn : Type :=
| ValueError (msg : string)
| TypeError (msg : string)
| OverflowError (msg : string).

Inductive result (A : Type) : Type :=
| Ok (a : A)
| Raise (e : exn).

Arguments Ok {A} a.
Arguments Raise {A} e.

Definition bind {A B : Type} (m : result A) (k : A -> result B) : result B :=
  match m with
  | Ok a => k a
  | Raise e => Raise e
  end.

(** ** Characters *)

Definition chr (n : nat) : ascii := ascii_of_nat n.

Definition dquote : ascii := chr 34.
Definition newline : string := String (chr 10) EmptyString.

(** String literals of the source that hold double quotes are written with
    apostrophes and passed through [dq]. *)
Fixpoint dq (s : string) : string :=
  match s with
  | EmptyString => EmptyString
  | String c s' => String (if Ascii.eqb c "'" then dquote else c) (dq s')
  end.

(** [str.isspace] on one character, which is also the class [\s] of [re] on
    a [str] pattern: TAB, LF, VT, FF, CR, FS, GS, RS, US, space, NEL, NBSP. *)
Definition isspace (c : ascii) : bool :=
  let n := nat_of_ascii c in
  ((9 <=? n) && (n <=? 13) || (28 <=? n) && (n <=? 32)
   || (n =? 133) || (n =? 160))%nat.

(** ** [str] methods *)

Fixpoint all_chars (p : ascii -> bool) (s : string) : bool :=
  match s with
  | EmptyString => true
  | String c s' => p c && all_chars p s'
  end.

Fixpoint lstrip (s : string) : string :=
  match s with
  | EmptyString => EmptyString
  | String c s' => if isspace c then lstrip s' else s
  end.

Fixpoint rstrip (s : string) : string :=
  match s with
  | EmptyString => EmptyString
  | String c s' =>
      match rstrip s' with
      | EmptyString => if isspace c then EmptyString else String c EmptyString
      | r => String c r
      end
  end.

(** [s.strip()] *)
Definition strip (s : string) : string := rstrip (lstrip s).

(** Truth value of a [str]: the empty string is false. *)
Definition truthy (s : string) : bool :=
  match s with
  | EmptyString => false
  | String _ _ => true
  end.

(** [s.split()] with no separator: the maximal runs of non-space characters.
    [cur] is the word being read, in reverse. *)
Fixpoint rev_string (acc s : string) : string :=
  match s with
  | EmptyString => acc
  | String c s' => rev_string (String c acc) s'
  end.

Definition flush (cur : string) (k : list string) : list string :=
  match cur with
  | EmptyString => k
  | _ => rev_string EmptyString cur :: k
  end.

Fixpoint split_from (cur : string) (s : string) : list string :=
  match s with
  | EmptyString => flush cur []
  | String c s' =>
      if isspace c then flush cur (split_from EmptyString s')
      else split_from (String c cur) s'
  end.

Definition split (s : string) : list string := split_from EmptyString s.

(** [sep.join(parts)] *)
Definition join (sep : string) (parts : list string) : string :=
  String.concat sep parts.

(** ** The fragment of [re] used by [detect_toc]

    A pattern is a sequence of items, each a single-character atom, perhaps
    under a greedy or a lazy star.  [match_here] is the backtracking matcher
    of [re]: a greedy star first tries to take one more character, a lazy
    star first tries to stop.  It returns the length of the match. *)

Inductive atom : Type :=
| Lit (c : ascii)     (* an escaped literal such as [\[] *)
| Dot                 (* [.] under [re.DOTALL]: any character *)
| Space.              (* [\s] *)

Inductive item : Type :=
| One (a : atom)
| Star (a : atom)       (* [a*]  *)
| StarLazy (a : atom).  (* [a*?] *)

Definition accepts (a : atom) (c : ascii) : bool :=
  match a with
  | Lit d => Ascii.eqb c d
  | Dot => true
  | Space => isspace c
  end.

Fixpoint match_here (pat : list item) : string -> option nat :=
  match pat with
  | [] => fun _ => Some O
  | One a :: pat' =>
      fun s =>
        match s with
        | String c s' =>
            if accepts a c then option_map S (match_here pat' s') else None
        | EmptyString => None
        end
  | Star a :: pat' =>
      fix greedy (s : string) : option nat :=
        match s with
        | String c s' =>
            if accepts a c then
              match greedy s' with
              | Some n => Some (S n)
              | None => match_here pat' s
              end
            else match_here pat' s
        | EmptyString => match_here pat' s
        end
  | StarLazy a :: pat' =>
      fix lazy (s : string) : option nat :=
        match match_here pat' s with
        | Some n => Some n
        | None =>
            match s with
            | String c s' =>
                if accepts a c then option_map S (lazy s') else None
            | EmptyString => None
            end
        end
  end.

(** [re.search]: the match at the leftmost position that has one, as
    (start, length). *)
Fixpoint search_from (pat : list item) (pos : nat) (s : string)
  : option (nat * nat) :=
  match match_here pat s with
  | Some n => Some (pos, n)
  | None =>
      match s with
      | EmptyString => None
      | String _ s' => search_from pat (S pos) s'
      end
  end.

(** [re.search(pat, s, re.DOTALL)] followed by [match.group(0)]. *)
Definition search (pat : list item) (s : string) : option string :=
  match search_from pat O s with
  | Some (start, n) => Some (substring start n s)
  | None => None
  end.

(** [str(n)] on an [int]. *)
Definition str (n : Z) : string := NilZero.string_of_int (Z.to_int n).

(** [s.split(sep)] with a separator that is not empty: the pieces between
    the occurrences of [sep], found from left to right.  [skip] counts the
    characters of a found separator still to pass; [cur] is the piece being
    read, in reverse. *)
Fixpoint split_on_from (sep : string) (skip : nat) (cur : string) (s : string)
  : list string :=
  match s with
  | EmptyString => [rev_string EmptyString cur]
  | String c s' =>
      match skip with
      | S k => split_on_from sep k cur s'
      | O =>
          if prefix sep s
          then rev_string EmptyString cur
               :: split_on_from sep (String.length sep - 1) EmptyString s'
          else split_on_from sep O (String c cur) s'
      end
  end.

Definition split_on (sep s : string) : list string :=
  split_on_from sep O EmptyString s.

(** [range(0, stop, step)] with a positive step. *)
Definition range (stop step : nat) : list nat :=
  map (fun j => j * step)%nat (seq 0 ((stop + step - 1) / step)).

(** [l[a:b]]: a negative index counts from the end, and both are brought
    back into the list. *)
Definition slice_index (n x : Z) : Z :=
  if x <? 0 then Z.max (x + n) 0 else Z.min x n.

Definition slice {A : Type} (l : list A) (a b : Z) : list A :=
  let n := Z.of_nat (List.length l) in
  let a' := slice_index n a in
  let b' := slice_index n b in
  firstn (Z.to_nat (b' - a')) (skipn (Z.to_nat a') l).

End Py.

(* ================================================================== *)
(** * Python values and a JSON decoder *)

Module Json.

(** The values [json.loads] produces.  A number written with a fraction or
    an exponent becomes a Python float; it is kept as its literal. *)
#[warnings="-register-all"] Inductive value : Type :=
| VNone
| VBool (b : bool)
| VInt (z : Z)
| VFloat (literal : string)
| VStr (s : string)
| VList (items : list value)
| VDict (entries : list (string * value)).

(** [d[k] = v] on a [dict]: an existing key keeps its place. *)
Fixpoint dict_set (d : list (string * value)) (k : string) (v : value)
  : list (string * value) :=
  match d with
  | [] => [(k, v)]
  | (k', v') :: d' =>
      if String.eqb k' k then (k', v) :: d' else (k', v') :: dict_set d' k v
  end.

(** ** A decoder for a fragment of JSON

    [loads] follows [json.loads] on the texts built from the literals
    [null], [true], [false], numbers, strings with the one-letter escapes,
    arrays and objects.  It is used to run the model on concrete responses;
    the properties below are stated for an arbitrary decoder.  Texts with
    [\u] escapes or the constants [NaN] and [Infinity] are outside the
    fragment and are not decoded. *)

Definition is_ws (c : ascii) : bool :=
  let n := nat_of_ascii c in
  ((n =? 32) || (n =? 9) || (n =? 10) || (n =? 13))%nat.

Fixpoint skip_ws (s : string) : string :=
  match s with
  | String c s' => if is_ws c then skip_ws s' else s
  | EmptyString => s
  end.

Definition is_digit (c : ascii) : bool :=
  let n := nat_of_ascii c in ((48 <=? n) && (n <=? 57))%nat.

Definition digit_val (c : ascii) : Z := Z.of_nat (nat_of_ascii c) - 48.

(** The digits at the head of [s]: their value from [acc], their text in
    reverse from [lit], and what is left. *)
Fixpoint digits (acc : Z) (lit : string) (s : string) : Z * string * string :=
  match s with
  | String c s' =>
      if is_digit c then digits (10 * acc + digit_val c) (String c lit) s'
      else (acc, lit, s)
  | EmptyString => (acc, lit, s)
  end.

(** A JSON number: an optional minus sign, an integer part with no leading
    zero, an optional fraction and an optional exponent. *)
Definition number (s : string) : option (value * string) :=
  let '(neg, s1) :=
    match s with
    | String "-" r => (true, r)
    | _ => (false, s)
    end in
  let sign := if neg then "-" else "" in
  let int_part :=
    match s1 with
    | String "0" r => Some (0, "0", r)
    | String c _ => if is_digit c then Some (digits 0 "" s1) else None
    | EmptyString => None
    end in
  match int_part with
  | None => None
  | Some (n, lit, r) =>
      let '(lit1, r1, frac) :=
        match r with
        | String "." (String c _ as r') =>
            if is_digit c then
              let '(_, l, r'') := digits 0 (String "." lit) r' in (l, r'', true)
            else (lit, r, false)
        | _ => (lit, r, false)
        end in
      let exponent (e : ascii) (r' : string) :=
        let '(sg, r2) :=
          match r' with
          | String "+" t => ("+", t)
          | String "-" t => ("-", t)
          | _ => ("", r')
          end in
        match r2 with
        | String c _ =>
            if is_digit c then
              let '(_, l, r3) :=
                digits 0 (Py.rev_string (String e lit1) sg) r2 in
              Some (l, r3)
            else None
        | EmptyString => None
        end in
      let '(lit2, r2, is_float) :=
        match r1 with
        | String e r' =>
            if (Ascii.eqb e "e" || Ascii.eqb e "E")%bool then
              match exponent e r' with
              | Some (l, r3) => (l, r3, true)
              | None => (lit1, r1, frac)
              end
            else (lit1, r1, frac)
        | EmptyString => (lit1, r1, frac)
        end in
      if is_float then
        Some (VFloat (sign ++ Py.rev_string "" lit2)%string, r2)
      else Some (VInt (if neg then - n else n), r2)
  end.

(** The characters of a string literal after its opening quote; [acc] is
    the decoded text in reverse. *)
Fixpoint string_body (acc : string) (s : string) : option (string * string) :=
  match s with
  | EmptyString => None
  | String c s' =>
      if Ascii.eqb c Py.dquote then Some (Py.rev_string "" acc, s')
      else if Ascii.eqb c "\" then
        match s' with
        | String e s'' =>
            let esc (d : ascii) := string_body (String d acc) s'' in
            if Ascii.eqb e Py.dquote then esc Py.dquote
            else if Ascii.eqb e "\" then esc "\"%char
            else if Ascii.eqb e "/" then esc "/"%char
            else if Ascii.eqb e "b" then esc (Py.chr 8)
            else if Ascii.eqb e "f" then esc (Py.chr 12)
            else if Ascii.eqb e "n" then esc (Py.chr 10)
            else if Ascii.eqb e "r" then esc (Py.chr 13)
            else if Ascii.eqb e "t" then esc (Py.chr 9)
            else None
        | EmptyString => None
        end
      else if (nat_of_ascii c <? 32)%nat then None
      else string_body (String c acc) s'
  end.

Definition literal (word : string) (v : value) (s : string)
  : option (value * string) :=
  if prefix word s
  then Some (v, substring (String.length word)
                          (String.length s - String.length word) s)
  else None.

Fixpoint scan (fuel : nat) (s : string) : option (value * string) :=
  match fuel with
  | O => None
  | S fuel' =>
      match s with
      | String "[" r =>
          match skip_ws r with
          | String "]" r' => Some (VList [], r')
          | r' => elements fuel' [] r'
          end
      | String "{" r =>
          match skip_ws r with
          | String "}" r' => Some (VDict [], r')
          | r' => members fuel' [] r'
          end
      | String "n" _ => literal "null" VNone s
      | String "t" _ => literal "true" (VBool true) s
      | String "f" _ => literal "false" (VBool false) s
      | String c r =>
          if Ascii.eqb c Py.dquote then
            match string_body "" r with
            | Some (str, r') => Some (VStr str, r')
            | None => None
            end
          else number s
      | EmptyString => None
      end
  end
with elements (fuel : nat) (acc : list value) (s : string)
  : option (value * string) :=
  match fuel with
  | O => None
  | S fuel' =>
      match scan fuel' s with
      | Some (v, r) =>
          match skip_ws r with
          | String "," r' => elements fuel' (v :: acc) (skip_ws r')
          | String "]" r' => Some (VList (rev (v :: acc)), r')
          | _ => None
          end
      | None => None
      end
  end
with members (fuel : nat) (acc : list (string * value)) (s : string)
  : option (value * string) :=
  match fuel with
  | O => None
  | S fuel' =>
      match s with
      | String c r =>
          if Ascii.eqb c Py.dquote then
            match string_body "" r with
            | Some (key, r1) =>
                match skip_ws r1 with
                | String ":" r2 =>
                    match scan fuel' (skip_ws r2) with
                    | Some (v, r3) =>
                        match skip_ws r3 with
                        | String "," r4 =>
                            members fuel' (dict_set acc key v) (skip_ws r4)
                        | String "}" r4 => Some (VDict (dict_set acc key v), r4)
                        | _ => None
                        end
                    | None => None
                    end
                | _ => None
                end
            | None => None
            end
          else None
      | EmptyString => None
      end
  end.

(** [json.loads(s)]; [None] stands for [json.JSONDecodeError]. *)
Definition loads (s : string) : option value :=
  match scan (2 * String.length s + 2) (skip_ws s) with
  | Some (v, r) =>
      match skip_ws r with
      | EmptyString => Some v
      | _ => None
      end
  | None => None
  end.

End Json.

(* ================================================================== *)
(** * The PDF document, as PyMuPDF ([fitz]) presents it *)

Module Fitz.

(** A span of [page.get_text("dict")]: a run of text in one font.  [color]
    and [bold] are [None] when the span has no such key. *)
Record span : Type := {
  size : Q;
  text : string;
  color : option Z;
  bold : option bool
}.

Record line : Type := { spans : list span }.

(** A block has the key ["lines"] when it is a text block. *)
Record block : Type := { lines : option (list line) }.

Record page : Type := {
  get_text_text : string;        (* [page.get_text("text")] *)
  get_text_blocks : list block   (* [page.get_text("dict")["blocks"]] *)
}.

Definition document : Type := list page.

End Fitz.

(* ================================================================== *)
(** * Loops *)

(** [enumerate(l)] *)
Fixpoint enumerate_from {A : Type} (i : Z) (l : list A) : list (Z * A) :=
  match l with
  | [] => []
  | x :: l' => (i, x) :: enumerate_from (i + 1) l'
  end.

Definition enumerate {A : Type} (l : list A) : list (Z * A) :=
  enumerate_from 0 l.

(** [for x in l: body], the loop state threaded from left to right. *)
Definition for_each {A S : Type} (l : list A) (body : S -> A -> S) (init : S)
  : S := fold_left body l init.

(* ================================================================== *)
(** * The [chapters] table *)

Module Db.

(** A row of [chapters (chapter_number TEXT, title TEXT, start_page INTEGER,
    end_page INTEGER)]; an integer column may hold NULL. *)
Definition row : Type := (string * string * option Z * option Z)%type.

Definition table : Type := list row.

(** A chapter record as the scripts pass it around: a [dict] with the four
    keys. *)
Record chapter : Type := {
  chapter_number : string;
  title : string;
  start_page : option Z;
  end_page : option Z
}.

(** An INTEGER of SQLite has 64 bits, signed. *)
Definition int64 (n : Z) : bool := (- 2 ^ 63 <=? n) && (n <? 2 ^ 63).

(** A page binds to a parameter of a statement when it is [None] or an
    integer of 64 bits. *)
Definition binds (x : option Z) : bool :=
  match x with
  | Some n => int64 n
  | None => true
  end.

Definition overflow : Py.exn :=
  Py.OverflowError "Python int too large to convert to SQLite INTEGER".

(** [c.execute("INSERT INTO chapters VALUES (?, ?, ?, ?)", row)] *)
Definition insert (rows : table) (r : row) : Py.result table :=
  let '(_, _, s, e) := r in
  if binds s && binds e then Py.Ok (rows ++ [r]) else Py.Raise overflow.

(** The end of a function that wrote to the table: [conn.commit()] when
    every statement went through; otherwise the exception leaves the
    function before the commit and the table stays as it was. *)
Definition commit (db : table) (written : Py.result table)
  : table * option Py.exn :=
  match written with
  | Py.Ok rows => (rows, None)
  | Py.Raise e => (db, Some e)
  end.

End Db.

(* ================================================================== *)
(** * [app.py] *)

Module App.

Import Py Json Fitz Db.

(** ** The chapter store *)

Definition is_None {A : Type} (o : option A) : bool :=
  match o with
  | None => true
  | Some _ => false
  end.

(** [save_chapters_to_db(chapters)]: the table after the call, and the
    exception it raised, if any. *)
Definition save_chapters_to_db (chapters : list chapter) (db : table)
  : table * option exn :=
  commit db
    (for_each chapters
       (fun written chapter =>
          bind written
            (fun rows =>
               (* None not in (chapter["start_page"], chapter["end_page"]) *)
               if negb (is_None (start_page chapter)
                        || is_None (end_page chapter))
               then insert rows (chapter_number chapter, title chapter,
                                 start_page chapter, end_page chapter)
               else Ok rows))
       (Ok [])).                                (* DELETE FROM chapters *)

(** [int(x) if x else None] on an INTEGER column: NULL and 0 are false. *)
Definition int_if (x : option Z) : option Z :=
  match x with
  | Some n => if n =? 0 then None else Some n
  | None => None
  end.

(** [get_chapters_from_db()] *)
Definition get_chapters_from_db (db : table) : list chapter :=
  map (fun row : row =>
         let '(r0, r1, r2, r3) := row in
         {| chapter_number := r0; title := r1;
            start_page := int_if r2; end_page := int_if r3 |})
      db.

(** [get_first_chapter_start_page()] *)
Definition get_first_chapter_start_page (db : table) : option Z :=
  match get_chapters_from_db db with
  | first :: _ => start_page first
  | [] => Some 1
  end.

(** The body of the "Detect the Index" button once [detect_toc] has
    returned [chapters]: the table, the message shown and the exception
    that [save_chapters_to_db] let through, if any. *)
Definition on_detected (chapters : list chapter) (db : table)
  : table * list string * option exn :=
  match chapters with
  | _ :: _ =>
      let '(db', raised) := save_chapters_to_db chapters db in
      (db', [], raised)
  | [] => (db, ["No chapters found in the extracted text."], None)
  end.

(** ** Page text *)

(** [start_page <= i + 1 <= end_page] *)
Definition in_range (start_page end_page i : Z) : bool :=
  (start_page <=? i + 1) && (i + 1 <=? end_page).

(** [extract_text_from_pdf(pdf_bytes, start_page, end_page)], on the opened
    document. *)
Definition extract_text_from_pdf (doc : document) (start_page end_page : Z)
  : string :=
  let text :=
    for_each (enumerate doc)
      (fun text '(i, page) =>
         if in_range start_page end_page i
         then text ++ [get_text_text page]
         else text)
      [] in
  match text with
  | [] => ""
  | _ => join newline text
  end.

(** ** TOC detection *)

Section Detect.

(** [llm.invoke(prompt).content] and [json.loads]. *)
Variable llm_invoke : string -> string.
Variable json_loads : string -> option value.

Definition prompt (text : string) : string :=
  join newline
    [ "";
      "    Extract the structured Table of Contents from the given text.";
      "    Identify the chapter numbers, titles, and their respective start and end pages.";
      "    Ensure that both structured and unstructured formats are considered and return JSON output.";
      "";
      "    Example JSON Output:";
      "    [";
      dq "        {'chapter_number': '1', 'title': 'Introduction', 'start_page': 1, 'end_page': 10},";
      dq "        {'chapter_number': '2', 'title': 'Basics', 'start_page': 11, 'end_page': 20}";
      "    ]";
      "";
      "    Text:";
      ("    " ++ text)%string;
      "    " ].

(** The pattern [\[.*\]]. *)
Definition toc_pattern : list item :=
  [One (Lit "["); Star Dot; One (Lit "]")].

(** [detect_toc(text)]: the value returned and the [st.error] messages. *)
Definition detect_toc (text : string) : value * list string :=
  let response := llm_invoke (prompt text) in
  if negb (truthy (strip response)) then
    (VList [], ["Error: Empty response from LLM while detecting TOC."])
  else
    match search toc_pattern response with
    | Some extracted_json =>
        match json_loads extracted_json with
        | Some v => (v, [])
        | None =>
            (VList [],
             ["Error: Invalid JSON response from LLM while detecting TOC."])
        end
    | None => (VList [], ["Error: No valid JSON found in response."])
    end.

End Detect.

(** ** Chapter extraction *)

Definition max_words : Z := 2000.

(** [a - b] where [b] may be [None]. *)
Definition int_sub (a : Z) (b : option Z) : result Z :=
  match b with
  | Some b => Ok (a - b)
  | None =>
      Raise (TypeError "unsupported operand type(s) for -: 'int' and 'NoneType'")
  end.

(** The page shift at the head of [extract_chapter]: [adjustment] is the
    first chapter's first page as the user gives it, minus the start page of
    the first stored chapter. *)
Definition resolve (start_page end_page first_chapter_first_page : Z)
                   (first_chapter_start_page_doc : option Z) : result (Z * Z) :=
  bind (int_sub first_chapter_first_page first_chapter_start_page_doc)
    (fun adjustment => Ok (start_page + adjustment, end_page + adjustment)).

(** The [font_sizes] dict, keyed by size, in insertion order. *)
Fixpoint dict_get (d : list (Q * Z)) (k : Q) (default : Z) : Z :=
  match d with
  | [] => default
  | (k', v) :: d' => if Qeq_bool k' k then v else dict_get d' k default
  end.

Fixpoint dict_set (d : list (Q * Z)) (k : Q) (v : Z) : list (Q * Z) :=
  match d with
  | [] => [(k, v)]
  | (k', v') :: d' =>
      if Qeq_bool k' k then (k', v) :: d' else (k', v') :: dict_set d' k v
  end.

(** First pass: words per font size over the spans of the page range. *)
Definition count_words (doc : document) (start_page end_page : Z)
  : list (Q * Z) :=
  for_each (enumerate doc)
    (fun font_sizes '(i, page) =>
       if in_range start_page end_page i then
         for_each (get_text_blocks page)
           (fun font_sizes block =>
              match lines block with
              | Some block_lines =>
                  for_each block_lines
                    (fun font_sizes line =>
                       for_each (spans line)
                         (fun font_sizes span =>
                            dict_set font_sizes (size span)
                              (dict_get font_sizes (size span) 0
                               + Z.of_nat (List.length (split (text span)))))
                         font_sizes)
                    font_sizes
              | None => font_sizes
              end)
           font_sizes
       else font_sizes)
    [].

(** [sorted(font_sizes.items(), key=lambda x: -x[0])]: a stable sort. *)
Fixpoint insert_by_key (x : Q * Z) (l : list (Q * Z)) : list (Q * Z) :=
  match l with
  | [] => [x]
  | y :: l' =>
      if Qle_bool (- fst x) (- fst y) then x :: l else y :: insert_by_key x l'
  end.

Definition sorted (items : list (Q * Z)) : list (Q * Z) :=
  fold_right insert_by_key [] items.

(** The selection loop, with its [break]. *)
Fixpoint select_loop (sorted_sizes : list (Q * Z)) (selected_sizes : list Q)
                     (total_words : Z) : list Q * Z :=
  match sorted_sizes with
  | [] => (selected_sizes, total_words)
  | (size, words) :: rest =>
      if total_words + words <=? max_words
      then select_loop rest (selected_sizes ++ [size]) (total_words + words)
      else (selected_sizes, total_words)
  end.

(** [selected_sizes] and [total_words] after the loop. *)
Definition select_sizes (font_sizes : list (Q * Z)) : list Q * Z :=
  select_loop (sorted font_sizes) [] 0.

(** [span["size"] in selected_sizes or "color" in span or "bold" in span] *)
Definition keep (selected_sizes : list Q) (span : span) : bool :=
  existsb (fun s => Qeq_bool s (size span)) selected_sizes
  || negb (is_None (color span)) || negb (is_None (bold span)).

(** Second pass: the texts kept, in page, block, line, span order. *)
Definition collect (doc : document) (start_page end_page : Z)
                   (selected_sizes : list Q) : list string :=
  for_each (enumerate doc)
    (fun headings '(i, page) =>
       if in_range start_page end_page i then
         for_each (get_text_blocks page)
           (fun headings block =>
              match lines block with
              | Some block_lines =>
                  for_each block_lines
                    (fun headings line =>
                       for_each (spans line)
                         (fun headings span =>
                            if keep selected_sizes span
                            then headings ++ [text span]
                            else headings)
                         headings)
                    headings
              | None => headings
              end)
           headings
       else headings)
    [].

(** The rest of [extract_chapter], from the shifted page range. *)
Definition extract_headings (doc : document) (start_page end_page : Z)
  : string :=
  let font_sizes := count_words doc start_page end_page in
  let '(selected_sizes, total_words) := select_sizes font_sizes in
  let headings := collect doc start_page end_page selected_sizes in
  match headings with
  | [] => ""
  | _ => join newline headings
  end.

(** [extract_chapter(pdf_bytes, start_page, end_page,
    first_chapter_first_page)], on the opened document and the table. *)
Definition extract_chapter (db : table) (doc : document)
    (start_page end_page first_chapter_first_page : Z) : result string :=
  let first_chapter_start_page_doc := get_first_chapter_start_page db in
  bind (resolve start_page end_page first_chapter_first_page
                first_chapter_start_page_doc)
    (fun '(start_page, end_page) =>
       Ok (extract_headings doc start_page end_page)).

(** [x += n] where [x] may be [None]. *)
Definition int_iadd (x : option Z) (n : Z) : result Z :=
  match x with
  | Some v => Ok (v + n)
  | None =>
      Raise (TypeError "unsupported operand type(s) for +=: 'NoneType' and 'int'")
  end.

(** [extract_chapter] as the "Generate Lesson Plan" button calls it: on the
    two pages of a chapter read from the store, either of which may be
    [None]. *)
Definition extract_chapter_stored (db : table) (doc : document)
    (start_page end_page : option Z) (first_chapter_first_page : Z)
  : result string :=
  let first_chapter_start_page_doc := get_first_chapter_start_page db in
  bind (int_sub first_chapter_first_page first_chapter_start_page_doc)
    (fun adjustment =>
       bind (int_iadd start_page adjustment)
         (fun start_page =>
            bind (int_iadd end_page adjustment)
              (fun end_page =>
                 Ok (extract_headings doc start_page end_page)))).

(** ** Lesson plan *)

Definition max_chunk_size : nat := 2000.

(** [[" ".join(words[i:i+max_chunk_size])
      for i in range(0, len(words), max_chunk_size)]] *)
Definition chunks_of (words : list string) : list string :=
  map (fun i => join " " (firstn max_chunk_size (skipn i words)))
      (range (List.length words) max_chunk_size).

Section LessonPlan.

(** [llm.invoke(prompt).content]; the answer may depend on the prompts sent
    before. *)
Variable llm_invoke : list string -> string -> string.

Definition subtopics_prompt (chunk : string) : string :=
  join newline
    [ "";
      "        Identify the most important subtopics from the following chapter content.";
      "        Ensure each subtopic is concise and meaningful.";
      "";
      "        Chapter Content:";
      ("        " ++ chunk)%string;
      "";
      "        Output format:";
      "        - Subtopic 1";
      "        - Subtopic 2";
      "        - Subtopic 3";
      "        " ].

Definition final_prompt (num_periods : Z) (class_level subtopics : string)
  : string :=
  join newline
    [ "";
      ("    Create a structured lesson plan for the following chapter content, divided into "
       ++ str num_periods ++ " periods, for class level " ++ class_level ++ ".")%string;
      "    Ensure each period evenly covers the topics and provides key points in 2-3 lines.";
      "";
      "    Key Subtopics:";
      ("    " ++ subtopics)%string;
      "";
      "    Output format:";
      "    | Period No | Topics to be Covered |";
      "    |-----------|----------------------|";
      "    " ].

(** The first loop of [get_lesson_plan]: the subtopics gathered and the
    prompts sent, in order. *)
Definition subtopics_loop (chunks : list string) (sent : list string)
  : list string * list string :=
  for_each chunks
    (fun (state : list string * list string) chunk =>
       let '(extracted_subtopics, sent) := state in
       let prompt := subtopics_prompt chunk in
       let response := llm_invoke sent prompt in
       let subtopics := split_on newline (strip response) in
       (extracted_subtopics ++ subtopics, sent ++ [prompt]))
    ([], sent).

(** [get_lesson_plan(chapter_text, num_periods, class_level)]: the plan
    returned and the prompts sent to the model, in order. *)
Definition get_lesson_plan (chapter_text : string) (num_periods : Z)
                           (class_level : string) : string * list string :=
  let words := split chapter_text in
  let chunks := chunks_of words in
  let '(extracted_subtopics, sent) := subtopics_loop chunks [] in
  let prompt :=
    final_prompt num_periods class_level (join newline extracted_subtopics) in
  let response := llm_invoke sent prompt in
  (strip response, sent ++ [prompt]).

End LessonPlan.

End App.

(* ================================================================== *)
(** * [app1.py] *)

Module App1.

Import Py Json Db.

(** [save_chapters_to_db(chapters)]: every record is inserted; the table
    after the call, and the exception it raised, if any. *)
Definition save_chapters_to_db (chapters : list chapter) (db : table)
  : table * option exn :=
  commit db
    (for_each chapters
       (fun written chapter =>
          bind written
            (fun rows =>
               insert rows (chapter_number chapter, title chapter,
                            start_page chapter, end_page chapter)))
       (Ok [])).                                (* DELETE FROM chapters *)

(** [get_chapters_from_db()] *)
Definition get_chapters_from_db (db : table) : list chapter :=
  map (fun row : row =>
         let '(r0, r1, r2, r3) := row in
         {| chapter_number := r0; title := r1;
            start_page := r2; end_page := r3 |})
      db.

Section Detect.

Variable llm_invoke : string -> string.
Variable json_loads : string -> option value.

Definition prompt (text : string) : string :=
  join newline
    [ "";
      "    Extract the Table of Contents or Index page which has the following content or headings in that page CHAPTER NUMBER,CONTENTS from the given text and return a valid JSON array.";
      "    Each item should have:";
      dq "    - 'chapter_number': (string)";
      dq "    - 'title': (string)";
      dq "    - 'start_page': (integer)";
      dq "    - 'end_page': (integer)";
      "";
      "    Example JSON Output:";
      "    [";
      dq "        {'chapter_number': '1', 'title': 'Introduction', 'start_page': 1, 'end_page': 10},";
      dq "        {'chapter_number': '2', 'title': 'Basics', 'start_page': 11, 'end_page': 20}";
      "    ]";
      "";
      "    Text:";
      ("    " ++ text)%string;
      "    " ].

(** The pattern [\[\s*\{.*?\}\s*\]]. *)
Definition toc_pattern : list item :=
  [One (Lit "["); Star Space; One (Lit "{"); StarLazy Dot;
   One (Lit "}"); Star Space; One (Lit "]")].

(** [detect_toc(text)] *)
Definition detect_toc (text : string) : result value :=
  let response := llm_invoke (prompt text) in
  if negb (truthy (strip response)) then
    Raise (ValueError "Groq returned an empty response")
  else
    match search toc_pattern response with
    | None => Raise (ValueError ("Invalid JSON from Groq: " ++ response)%string)
    | Some extracted_json =>
        match json_loads extracted_json with
        | Some v => Ok v
        | None =>
            Raise (ValueError
                     ("Failed to parse extracted JSON: " ++ extracted_json)%string)
        end
    end.

End Detect.

(** [extract_text_from_pdf(pdf_bytes, max_pages)], on the opened document;
    the loop stops at the first page index that reaches a [max_pages] that
    is neither [None] nor 0. *)
Fixpoint pages_loop (max_pages : option Z) (pages : list (Z * Fitz.page))
                    (text : list string) : list string :=
  match pages with
  | [] => text
  | (i, page) :: rest =>
      let stop :=
        match max_pages with
        | Some n => negb (n =? 0) && (n <=? i)
        | None => false
        end in
      if stop then text
      else pages_loop max_pages rest (text ++ [Fitz.get_text_text page])
  end.

Definition extract_text_from_pdf (doc : Fitz.document) (max_pages : option Z)
  : string :=
  join newline (pages_loop max_pages (enumerate doc) []).

(** [x += n] where [x] may be [None]. *)
Definition iadd (x : option Z) (n : Z) : result Z :=
  match x with
  | Some v => Ok (v + n)
  | None =>
      Raise (TypeError "unsupported operand type(s) for +=: 'NoneType' and 'int'")
  end.

(** [extract_chapter(text, start_page, end_page)]; the two pages are the
    columns of the stored chapter. *)
Definition extract_chapter (text : string) (start_page end_page : option Z)
  : result string :=
  bind (iadd start_page 8)
    (fun start_page =>
       bind (iadd end_page 8)
         (fun end_page =>
            let pages := split_on (newline ++ newline)%string text in
            Ok (join newline (slice pages start_page (end_page + 1))))).

End App1.

(* ================================================================== *)
(** * Vocabulary of the specification *)

Module Spec.

Import Db Fitz.

(** Empty, or made of whitespace only. *)
Definition blank (s : string) : bool := Py.all_chars Py.isspace s.

(** The character [c] does not occur in [s]. *)
Definition lacks (c : ascii) (s : string) : bool :=
  Py.all_chars (fun x => negb (Ascii.eqb x c)) s.

(** [inner] occurs in [s]. *)
Definition occurs_in (inner s : string) : Prop :=
  exists before after, s = (before ++ inner ++ after)%string.

(** Both page bounds of the record are present. *)
Definition has_bounds (c : chapter) : bool :=
  match start_page c, end_page c with
  | Some _, Some _ => true
  | _, _ => false
  end.

(** Both pages of the record bind to an INTEGER parameter. *)
Definition storable (c : chapter) : bool :=
  binds (start_page c) && binds (end_page c).

(** Neither page bound of the record is the number 0. *)
Definition nonzero_bounds (c : chapter) : Prop :=
  start_page c <> Some 0 /\ end_page c <> Some 0.

Definition row_of (c : chapter) : row :=
  (chapter_number c, title c, start_page c, end_page c).

(** Both integer columns of the row hold a number. *)
Definition row_has_bounds (r : row) : Prop :=
  let '(_, _, s, e) := r in s <> None /\ e <> None.

(** The pages whose 1-indexed position lies in [[start_page, end_page]], in
    physical order. *)
Definition pages_between (doc : document) (start_page end_page : Z)
  : list page :=
  let first := Z.max start_page 1 in
  firstn (Z.to_nat (end_page - first + 1)) (skipn (Z.to_nat (first - 1)) doc).

(** What a loop over [enumerate(doc)], counted from [i] and guarded by the
    range test, gathers with [G]. *)
Definition gathered {B : Type} (G : page -> list B) (i : Z) (doc : document)
                    (s e : Z) : list B :=
  flat_map (fun ip : Z * page =>
              if App.in_range s e (fst ip) then G (snd ip) else [])
           (enumerate_from i doc).

(** The spans of a block, of the page range: in page, block, line, span
    order. *)
Definition block_spans (b : block) : list span :=
  match lines b with
  | Some ls => flat_map spans ls
  | None => []
  end.

Definition spans_between (doc : document) (start_page end_page : Z)
  : list span :=
  flat_map (fun p => flat_map block_spans (get_text_blocks p))
           (pages_between doc start_page end_page).

(** The font sizes accepted for the page range. *)
Definition selected_sizes (doc : document) (start_page end_page : Z) : list Q :=
  fst (App.select_sizes (App.count_words doc start_page end_page)).

(** The span has one of the two style keys. *)
Definition styled (sp : span) : Prop := color sp <> None \/ bold sp <> None.

(** The size is one of the selected ones. *)
Definition size_selected (selected : list Q) (sp : span) : Prop :=
  exists s, In s selected /\ (s == size sp)%Q.

(** The number of words of a span, as the first pass counts them. *)
Definition span_words (sp : span) : Z :=
  Z.of_nat (List.length (Py.split (text sp))).

(** The words of the spans of size [k], and of all the spans. *)
Definition words_of_size (k : Q) (l : list span) : Z :=
  fold_right (fun sp n => if Qeq_bool (size sp) k then span_words sp + n else n)
             0 l.

Definition total_words (l : list span) : Z :=
  fold_right (fun sp n => span_words sp + n) 0 l.

(** The sum of the word counts of a histogram. *)
Definition sum_words (d : list (Q * Z)) : Z :=
  fold_right (fun kv n => snd kv + n) 0 d.

(** What the first pass does with one span. *)
Definition add_span (font_sizes : list (Q * Z)) (sp : span) : list (Q * Z) :=
  App.dict_set font_sizes (size sp)
    (App.dict_get font_sizes (size sp) 0 + span_words sp).

(** [k in font_sizes] *)
Definition has_key (d : list (Q * Z)) (k : Q) : bool :=
  existsb (fun kv => Qeq_bool (fst kv) k) d.

(** The order in which the sizes are tried: larger sizes first. *)
Definition larger_first (x y : Q * Z) : Prop := (fst y <= fst x)%Q.

(** The record with each page number 0 taken as absent. *)
Definition zero_absent (c : chapter) : chapter :=
  {| chapter_number := chapter_number c;
     title := title c;
     start_page := match start_page c with Some 0 => None | p => p end;
     end_page := match end_page c with Some 0 => None | p => p end |}.

(** No two keys of the dict are equal. *)
Fixpoint distinct_keys (d : list (Q * Z)) : Prop :=
  match d with
  | [] => True
  | kv :: d' => has_key d' (fst kv) = false /\ distinct_keys d'
  end.

(** The words of the spans whose size is one of [sizes]. *)
Definition words_of_sizes (sizes : list Q) (l : list span) : Z :=
  fold_right
    (fun sp n =>
       if existsb (fun s => Qeq_bool s (size sp)) sizes
       then span_words sp + n else n)
    0 l.

(** The stripped answers of the model to the subtopics prompts of the
    chunks, [sent] being the prompts sent before. *)
Fixpoint answers (llm_invoke : list string -> string -> string)
                 (chunks : list string) (sent : list string) : list string :=
  match chunks with
  | [] => []
  | chunk :: rest =>
      Py.strip (llm_invoke sent (App.subtopics_prompt chunk))
      :: answers llm_invoke rest (sent ++ [App.subtopics_prompt chunk])
  end.

(** A word: not empty, and without whitespace. *)
Definition wordlike (w : string) : Prop :=
  w <> EmptyString /\ Py.all_chars (fun c => negb (Py.isspace c)) w = true.

End Spec.

(* ================================================================== *)
(** * Sample data *)

Module Sample.

Import Json Fitz Db.

Definition pt (n : Z) : Q := inject_Z n.

(** The histogram of property P5. *)
Definition histogram : list (Q * Z) :=
  [(pt 20, 500); (pt 14, 1800); (pt 10, 5000)].

(** A response that wraps the array in prose and a code fence. *)
Definition fenced_pre : string :=
  ("Here is the TOC:" ++ Py.newline ++ "```json" ++ Py.newline)%string.

Definition fenced_inner : string :=
  (Py.dq "'chapter_number': '1', 'title': 'Introduction', 'start_page': 1, 'end_page': 10},"
   ++ Py.newline ++
   Py.dq " {'chapter_number': '2', 'title': 'Basics', 'start_page': 11, 'end_page': 20")%string.

Definition fenced_body : string := ("{" ++ fenced_inner ++ "}")%string.

Definition fenced_post : string := (Py.newline ++ "```")%string.

Definition fenced_response : string :=
  (fenced_pre ++ ("[" ++ fenced_body ++ "]") ++ fenced_post)%string.

Definition fenced_records : value :=
  VList
    [VDict [("chapter_number", VStr "1"); ("title", VStr "Introduction");
            ("start_page", VInt 1); ("end_page", VInt 10)];
     VDict [("chapter_number", VStr "2"); ("title", VStr "Basics");
            ("start_page", VInt 11); ("end_page", VInt 20)]].

Definition chapter_A : chapter :=
  {| chapter_number := "1"; title := "Introduction";
     start_page := Some 1; end_page := Some 10 |}.

Definition chapter_B : chapter :=
  {| chapter_number := "2"; title := "Basics";
     start_page := Some 11; end_page := Some 20 |}.

Definition chapter_C : chapter :=
  {| chapter_number := "3"; title := "Algebra";
     start_page := Some 21; end_page := Some 30 |}.

(** A record with a page number that SQLite cannot hold. *)
Definition chapter_huge : chapter :=
  {| chapter_number := "9"; title := "Index";
     start_page := Some 400; end_page := Some (2 ^ 63) |}.

(** A record that ends on page 0. *)
Definition chapter_ends_at_zero : chapter :=
  {| chapter_number := "2"; title := "Basics";
     start_page := Some 12; end_page := Some 0 |}.

(** A record that starts on page 0. *)
Definition chapter_zero : chapter :=
  {| chapter_number := "0"; title := "Preface";
     start_page := Some 0; end_page := Some 4 |}.

(** A record whose end page the model could not determine. *)
Definition chapter_open : chapter :=
  {| chapter_number := "4"; title := "Appendix";
     start_page := Some 31; end_page := None |}.

Definition plain (s : Q) (t : string) : span :=
  {| size := s; text := t; color := None; bold := None |}.

Definition text_line (l : list span) : line := {| spans := l |}.

Definition text_block (l : list span) : block :=
  {| lines := Some [text_line l] |}.

(** An image block: no ["lines"] key. *)
Definition image_block : block := {| lines := None |}.

Definition page_of (t : string) (l : list span) : page :=
  {| get_text_text := t; get_text_blocks := [image_block; text_block l] |}.

Definition bold_note : span :=
  {| size := pt 8; text := "bold note"; color := None; bold := Some true |}.

(** [n] words of body text. *)
Fixpoint prose (n : nat) : string :=
  match n with
  | O => ""
  | S n' => ("word " ++ prose n')%string
  end.

(** Three pages: headings in sizes 20 and 14, 2100 words of body text in
    size 10, and two spans in size 8, one of them bold. *)
Definition page_three_spans : list span :=
  [plain (pt 14) "Sub"; bold_note; plain (pt 8) "footnote"].

Definition page_three : page := page_of "page three" page_three_spans.

Definition book : document :=
  [ page_of "contents" [plain (pt 20) "Contents"];
    page_of "page two" [plain (pt 20) "Title one"; plain (pt 10) (prose 2100)];
    page_three ].

(** One page whose spans make the histogram of property P5: 5000 words in
    size 10, 500 in size 20, 1800 in size 14. *)
Definition words_doc : document :=
  [ page_of "chapter"
      [plain (pt 10) (prose 5000); plain (pt 20) (prose 500);
       plain (pt 14) (prose 1800)] ].

End Sample.

(* ================================================================== *)
(** * The model at work *)

Example strip_sample : Py.strip "  a b  " = "a b".
Proof. reflexivity. Qed.

Example split_sample : Py.split "  the quick  fox " = ["the"; "quick"; "fox"].
Proof. reflexivity. Qed.

Example greedy_sample :
  Py.search App.toc_pattern "see [1, [2], 3] and ] then"
  = Some "[1, [2], 3] and ]".
Proof. reflexivity. Qed.

Example lazy_sample :
  Py.search App1.toc_pattern "see [ {a}, {b} ] and {c} ] then"
  = Some "[ {a}, {b} ]".
Proof. reflexivity. Qed.

Example loads_sample :
  Json.loads (Py.dq " [{'n': '1', 'p': null}, [-12, 1.5e3, true], {}] ")
  = Some (Json.VList
            [Json.VDict [("n", Json.VStr "1"); ("p", Json.VNone)];
             Json.VList [Json.VInt (-12); Json.VFloat "1.5e3";
                         Json.VBool true];
             Json.VDict []]).
Proof. reflexivity. Qed.

Example loads_trailing_comma : Json.loads "[1,]" = None.
Proof. reflexivity. Qed.

Example extract_text_sample :
  App.extract_text_from_pdf Sample.book 1 2
  = ("contents" ++ Py.newline ++ "page two")%string.
Proof. reflexivity. Qed.

Example stored_zero_reads_as_absent :
  App.get_chapters_from_db [("0", "Preface", Some 0, Some 4)]
  = [ {| Db.chapter_number := "0"; Db.title := "Preface";
         Db.start_page := None; Db.end_page := Some 4 |} ].
Proof. reflexivity. Qed.

(* ================================================================== *)
(** * Facts about strings *)

Section StringFacts.

Import Py Spec.

Lemma append_assoc (a b c : string) :
  ((a ++ b) ++ c = a ++ (b ++ c))%string.
Proof. induction a as [|x a IH]; simpl; [reflexivity | now rewrite IH]. Qed.

Lemma append_empty_r (s : string) : (s ++ "")%string = s.
Proof. induction s as [|x s IH]; simpl; [reflexivity | now rewrite IH]. Qed.

Lemma substring_all (s t : string) :
  substring 0 (String.length s) (s ++ t) = s.
Proof.
  induction s as [|x s IH]; simpl.
  - now destruct t.
  - now rewrite IH.
Qed.

Lemma substring_middle (pre mid post : string) :
  substring (String.length pre) (String.length mid) (pre ++ mid ++ post) = mid.
Proof.
  induction pre as [|x pre IH]; simpl.
  - apply substring_all.
  - exact IH.
Qed.

Lemma all_chars_append (p : ascii -> bool) (a b : string) :
  all_chars p (a ++ b) = all_chars p a && all_chars p b.
Proof.
  induction a as [|x a IH]; simpl; [reflexivity|].
  now rewrite IH, andb_assoc.
Qed.

Lemma lstrip_head (s : string) :
  lstrip s = "" \/ exists c r, lstrip s = String c r /\ isspace c = false.
Proof.
  induction s as [|x s IH]; simpl; [now left|].
  destruct (isspace x) eqn:E; [exact IH|].
  right. now exists x, s.
Qed.

Lemma lstrip_empty (s : string) : lstrip s = "" <-> blank s = true.
Proof.
  unfold blank.
  induction s as [|x s IH]; simpl; [tauto|].
  destruct (isspace x); simpl; [exact IH|].
  split; discriminate.
Qed.

Lemma rstrip_empty (s : string) : rstrip s = "" <-> blank s = true.
Proof.
  unfold blank.
  induction s as [|x s IH]; simpl; [tauto|].
  destruct (rstrip s) eqn:R.
  - destruct (isspace x); simpl; [tauto|]. split; discriminate.
  - split; [discriminate|].
    intros H. apply andb_true_iff in H. destruct H as [_ H].
    apply IH in H. discriminate.
Qed.

(** [s.strip()] is empty exactly when [s] is blank. *)
Lemma strip_empty (s : string) : strip s = "" <-> blank s = true.
Proof.
  unfold strip. split.
  - intros H. apply lstrip_empty.
    destruct (lstrip_head s) as [E | (c & r & E & Hc)]; [exact E|].
    rewrite E in H. apply rstrip_empty in H.
    unfold blank in H. simpl in H. rewrite Hc in H. discriminate.
  - intros H. apply lstrip_empty in H. now rewrite H.
Qed.

Lemma truthy_strip (s : string) :
  truthy (strip s) = negb (blank s).
Proof.
  destruct (blank s) eqn:B.
  - apply strip_empty in B. now rewrite B.
  - destruct (strip s) eqn:E; [|reflexivity].
    apply strip_empty in E. congruence.
Qed.

Lemma isspace_not (c d : ascii) :
  isspace c = true -> isspace d = false -> Ascii.eqb c d = false.
Proof.
  intros Hc Hd. destruct (Ascii.eqb_spec c d); [congruence | reflexivity].
Qed.

Lemma blank_lacks (c : ascii) (s : string) :
  isspace c = false -> blank s = true -> lacks c s = true.
Proof.
  intros Hc. unfold blank, lacks.
  induction s as [|x s IH]; simpl; [reflexivity|].
  intros H. apply andb_true_iff in H. destruct H as [Hx Hs].
  rewrite (isspace_not x c Hx Hc). simpl. auto.
Qed.

(** A part of a newline-joined text occurs in it. *)
Lemma join_occurs (sep t : string) (parts : list string) :
  In t parts -> occurs_in t (join sep parts).
Proof.
  unfold occurs_in, join.
  induction parts as [|p parts IH]; simpl; [tauto|].
  intros [-> | H].
  - destruct parts as [|q parts].
    + exists "", "". simpl. now rewrite append_empty_r.
    + exists "", (sep ++ String.concat sep (q :: parts))%string. reflexivity.
  - destruct parts as [|q parts]; [destruct H|].
    destruct (IH H) as (b & a & E).
    exists (p ++ sep ++ b)%string, a.
    rewrite E. now rewrite !append_assoc.
Qed.

End StringFacts.

(* ================================================================== *)
(** * Facts about the matcher *)

Section MatcherFacts.

Import Py Spec.

Lemma length_append (a b : string) :
  String.length (a ++ b) = (String.length a + String.length b)%nat.
Proof. induction a as [|x a IH]; simpl; [reflexivity | now rewrite IH]. Qed.

(** The equations of [match_here] and [search_from]. *)

Lemma match_one (a : atom) (pat : list item) (c : ascii) (s : string) :
  match_here (One a :: pat) (String c s) =
  if accepts a c then option_map S (match_here pat s) else None.
Proof. reflexivity. Qed.

Lemma match_star (a : atom) (pat : list item) (s : string) :
  match_here (Star a :: pat) s =
  match s with
  | String c s' =>
      if accepts a c then
        match match_here (Star a :: pat) s' with
        | Some n => Some (S n)
        | None => match_here pat s
        end
      else match_here pat s
  | EmptyString => match_here pat s
  end.
Proof. destruct s; reflexivity. Qed.

Lemma match_lazy (a : atom) (pat : list item) (s : string) :
  match_here (StarLazy a :: pat) s =
  match match_here pat s with
  | Some n => Some n
  | None =>
      match s with
      | String c s' =>
          if accepts a c
          then option_map S (match_here (StarLazy a :: pat) s')
          else None
      | EmptyString => None
      end
  end.
Proof. destruct s; reflexivity. Qed.

Lemma search_from_eq (pat : list item) (pos : nat) (s : string) :
  search_from pat pos s =
  match match_here pat s with
  | Some n => Some (pos, n)
  | None =>
      match s with
      | EmptyString => None
      | String _ s' => search_from pat (S pos) s'
      end
  end.
Proof. destruct s; reflexivity. Qed.

Lemma lacks_cons (c x : ascii) (s : string) :
  lacks c (String x s) = true -> Ascii.eqb x c = false /\ lacks c s = true.
Proof.
  unfold lacks. simpl. intros H. apply andb_true_iff in H.
  destruct H as [H1 H2]. split; [|exact H2].
  now apply negb_true_iff in H1.
Qed.

(** A pattern that opens with a literal cannot match before the first
    occurrence of that literal. *)
Lemma search_from_skip (c : ascii) (pat : list item) (pre s : string) :
  lacks c pre = true ->
  forall pos,
    search_from (One (Lit c) :: pat) pos (pre ++ s) =
    search_from (One (Lit c) :: pat) (pos + String.length pre) s.
Proof.
  induction pre as [|x pre IH]; intros L pos.
  - simpl. now rewrite Nat.add_0_r.
  - apply lacks_cons in L. destruct L as [Hx L].
    change (String x pre ++ s)%string with (String x (pre ++ s)).
    rewrite search_from_eq, match_one. simpl accepts. rewrite Hx.
    rewrite (IH L). f_equal. simpl. lia.
Qed.

Lemma search_found (c : ascii) (pat : list item) (pre mid post : string) :
  lacks c pre = true ->
  match_here (One (Lit c) :: pat) (mid ++ post) = Some (String.length mid) ->
  search (One (Lit c) :: pat) (pre ++ mid ++ post) = Some mid.
Proof.
  intros L M. unfold search.
  rewrite (search_from_skip c pat pre _ L), search_from_eq, M.
  simpl. now rewrite substring_middle.
Qed.

(** Nothing is found in a text that lacks the opening literal. *)
Lemma search_lacks (c : ascii) (pat : list item) (s : string) :
  lacks c s = true -> search (One (Lit c) :: pat) s = None.
Proof.
  intros L. unfold search.
  rewrite <- (append_empty_r s), (search_from_skip c pat s "" L).
  reflexivity.
Qed.

Lemma search_blank (c : ascii) (pat : list item) (s : string) :
  isspace c = false -> blank s = true -> search (One (Lit c) :: pat) s = None.
Proof. intros Hc B. apply search_lacks. now apply blank_lacks. Qed.

(** ** The greedy pattern of [app.py] *)

Lemma greedy_none (c : ascii) (post : string) :
  lacks c post = true ->
  match_here [Star Dot; One (Lit c)] post = None.
Proof.
  induction post as [|x post IH]; intros L.
  - reflexivity.
  - apply lacks_cons in L. destruct L as [Hx L].
    rewrite match_star. simpl accepts. cbv iota.
    rewrite (IH L), match_one. simpl accepts. now rewrite Hx.
Qed.

(** [.*\]] runs to the last closing bracket. *)
Lemma greedy_last (c : ascii) (body post : string) :
  lacks c post = true ->
  match_here [Star Dot; One (Lit c)] (body ++ String c post) =
  Some (S (String.length body)).
Proof.
  intros L. induction body as [|x body IH].
  - simpl append. rewrite match_star. simpl accepts. cbv iota.
    rewrite (greedy_none c post L), match_one. simpl accepts.
    now rewrite Ascii.eqb_refl.
  - change (String x body ++ String c post)%string
      with (String x (body ++ String c post)).
    rewrite match_star. simpl accepts. cbv iota.
    now rewrite IH.
Qed.

Lemma toc_pattern_match (body post : string) :
  lacks "]" post = true ->
  match_here App.toc_pattern (("[" ++ body ++ "]") ++ post) =
  Some (String.length ("[" ++ body ++ "]")).
Proof.
  intros L. unfold App.toc_pattern.
  change (("[" ++ body ++ "]") ++ post)%string
    with (String "[" ((body ++ "]") ++ post)).
  rewrite match_one. simpl accepts. cbv iota.
  rewrite append_assoc. simpl append at 2.
  rewrite (greedy_last "]" body post L). simpl.
  now rewrite length_append, Nat.add_1_r.
Qed.

(** The text [app.py] extracts: from the first opening bracket to the last
    closing one. *)
Lemma toc_pattern_search (pre body post : string) :
  lacks "[" pre = true ->
  lacks "]" post = true ->
  search App.toc_pattern (pre ++ ("[" ++ body ++ "]") ++ post)
  = Some ("[" ++ body ++ "]")%string.
Proof.
  intros L1 L2. apply search_found; [exact L1|].
  now apply toc_pattern_match.
Qed.

(** ** The lazy pattern of [app1.py] *)

(** [\s*] in front of a literal that is not a space skips the whole blank
    prefix and has no other way to match. *)
Lemma star_space_skip (d : ascii) (pat : list item) (ws : string)
      (c : ascii) (s : string) :
  isspace d = false ->
  blank ws = true ->
  isspace c = false ->
  match_here (Star Space :: One (Lit d) :: pat) (ws ++ String c s) =
  option_map (Nat.add (String.length ws))
             (match_here (One (Lit d) :: pat) (String c s)).
Proof.
  intros Hd B Hc. induction ws as [|w ws IH].
  - simpl append. rewrite match_star. simpl accepts. rewrite Hc.
    now destruct (match_here (One (Lit d) :: pat) (String c s)).
  - unfold blank in B. simpl in B. apply andb_true_iff in B.
    destruct B as [Hw B].
    change (String w ws ++ String c s)%string
      with (String w (ws ++ String c s)).
    rewrite match_star. simpl accepts. rewrite Hw.
    rewrite (IH B).
    destruct (match_here (One (Lit d) :: pat) (String c s)); cbn [option_map].
    + reflexivity.
    + rewrite match_one. simpl accepts. now rewrite (isspace_not w d Hw Hd).
Qed.

Lemma closing_none (t rest : string) :
  lacks "]" t = true ->
  match_here [Star Space; One (Lit "]")] (t ++ String "}" rest) = None.
Proof.
  induction t as [|x t IH]; intros L.
  - simpl append. rewrite match_star. reflexivity.
  - apply lacks_cons in L. destruct L as [Hx L].
    change (String x t ++ String "}" rest)%string
      with (String x (t ++ String "}" rest)).
    rewrite match_star, (IH L), match_one. simpl accepts. rewrite Hx.
    now destruct (isspace x).
Qed.

Lemma closing_match (ws post : string) :
  blank ws = true ->
  match_here [One (Lit "}"); Star Space; One (Lit "]")]
             (String "}" (ws ++ String "]" post)) =
  Some (S (String.length ws + 1)).
Proof.
  intros B. rewrite match_one. simpl accepts. cbv iota.
  rewrite (star_space_skip "]" [] ws "]" post eq_refl B eq_refl).
  reflexivity.
Qed.

(** [.*?\}\s*\]] stops at the first closing brace that a closing bracket
    follows. *)
Lemma lazy_first (inner ws post : string) :
  lacks "]" inner = true ->
  blank ws = true ->
  match_here [StarLazy Dot; One (Lit "}"); Star Space; One (Lit "]")]
             (inner ++ String "}" (ws ++ String "]" post)) =
  Some (String.length inner + S (String.length ws + 1))%nat.
Proof.
  intros L B. induction inner as [|x inner IH].
  - simpl append. rewrite match_lazy, (closing_match ws post B). reflexivity.
  - apply lacks_cons in L. destruct L as [Hx L].
    change (String x inner ++ String "}" (ws ++ String "]" post))%string
      with (String x (inner ++ String "}" (ws ++ String "]" post))).
    rewrite match_lazy, match_one.
    rewrite (closing_none inner (ws ++ String "]" post) L).
    replace (if accepts (Lit "}") x then option_map S None else None)
      with (@None nat) by now destruct (accepts (Lit "}") x).
    simpl accepts. cbv iota. rewrite (IH L). reflexivity.
Qed.

Lemma toc_pattern1_match (ws1 inner ws2 post : string) :
  blank ws1 = true ->
  lacks "]" inner = true ->
  blank ws2 = true ->
  match_here App1.toc_pattern
             (("[" ++ ws1 ++ "{" ++ inner ++ "}" ++ ws2 ++ "]") ++ post) =
  Some (String.length ("[" ++ ws1 ++ "{" ++ inner ++ "}" ++ ws2 ++ "]")).
Proof.
  intros B1 L B2. unfold App1.toc_pattern.
  rewrite !append_assoc. simpl append.
  rewrite match_one. simpl accepts. cbv iota.
  rewrite (star_space_skip "{" _ ws1 "{" _ eq_refl B1 eq_refl).
  rewrite match_one. simpl accepts. cbv iota.
  rewrite (lazy_first inner ws2 post L B2).
  cbn [option_map String.length].
  repeat (rewrite length_append; cbn [String.length]).
  f_equal; lia.
Qed.

(** The text [app1.py] extracts from a response whose first bracket opens
    an array that starts with an object and ends after one. *)
Lemma toc_pattern1_search (pre ws1 inner ws2 post : string) :
  lacks "[" pre = true ->
  blank ws1 = true ->
  lacks "]" inner = true ->
  blank ws2 = true ->
  search App1.toc_pattern
         (pre ++ ("[" ++ ws1 ++ "{" ++ inner ++ "}" ++ ws2 ++ "]") ++ post)
  = Some ("[" ++ ws1 ++ "{" ++ inner ++ "}" ++ ws2 ++ "]")%string.
Proof.
  intros L1 B1 L B2. apply search_found; [exact L1|].
  now apply toc_pattern1_match.
Qed.

(** Without an opening brace the pattern of [app1.py] matches nowhere. *)
Lemma brace_needed (t : string) :
  lacks "{" t = true ->
  match_here [Star Space; One (Lit "{"); StarLazy Dot; One (Lit "}");
              Star Space; One (Lit "]")] t = None.
Proof.
  induction t as [|y t IH]; intros L.
  - reflexivity.
  - apply lacks_cons in L. destruct L as [Hy L].
    rewrite match_star, (IH L), match_one. simpl accepts.
    rewrite Hy. now destruct (isspace y).
Qed.

Lemma toc_pattern1_needs_brace (s : string) :
  lacks "{" s = true -> search App1.toc_pattern s = None.
Proof.
  intros L. unfold search.
  assert (G : forall pos, search_from App1.toc_pattern pos s = None);
    [|now rewrite G].
  induction s as [|x s IH]; intros pos.
  - reflexivity.
  - apply lacks_cons in L. destruct L as [_ L].
    rewrite search_from_eq. unfold App1.toc_pattern at 1.
    rewrite match_one, (brace_needed s L).
    replace (if accepts (Lit "[") x then option_map S None else None)
      with (@None nat) by now destruct (accepts (Lit "[") x).
    now apply IH.
Qed.

End MatcherFacts.

(* ================================================================== *)
(** * TOC detection *)

Section DetectFacts.

Import Py Json Spec.

Variable llm_invoke : string -> string.
Variable json_loads : string -> option value.

Lemma found_not_blank (c : ascii) (pat : list item) (s extracted : string) :
  isspace c = false ->
  search (One (Lit c) :: pat) s = Some extracted ->
  blank s = false.
Proof.
  intros Hc F. destruct (blank s) eqn:B; [|reflexivity].
  rewrite (search_blank c pat s Hc B) in F. discriminate.
Qed.

Lemma detect_toc_found (text extracted : string) :
  search App.toc_pattern (llm_invoke (App.prompt text)) = Some extracted ->
  App.detect_toc llm_invoke json_loads text =
  match json_loads extracted with
  | Some v => (v, [])
  | None =>
      (VList [], ["Error: Invalid JSON response from LLM while detecting TOC."])
  end.
Proof.
  intros F. unfold App.detect_toc.
  rewrite truthy_strip, (found_not_blank "[" _ _ _ eq_refl F), F.
  reflexivity.
Qed.

Lemma detect_toc1_found (text extracted : string) :
  search App1.toc_pattern (llm_invoke (App1.prompt text)) = Some extracted ->
  App1.detect_toc llm_invoke json_loads text =
  match json_loads extracted with
  | Some v => Ok v
  | None =>
      Raise (ValueError ("Failed to parse extracted JSON: " ++ extracted)%string)
  end.
Proof.
  intros F. unfold App1.detect_toc.
  rewrite truthy_strip, (found_not_blank "[" _ _ _ eq_refl F), F.
  reflexivity.
Qed.

End DetectFacts.

(** C3, as amended.  When the response of the model is empty or made of
    whitespace only, [detect_toc] of [app.py] shows the message
    "Error: Empty response from LLM while detecting TOC." and returns the
    empty list, without raising; [detect_toc] of [app1.py] raises
    [ValueError] to its caller. *)
Theorem detect_toc_blank_response
    (llm_invoke : string -> string)
    (json_loads : string -> option Json.value) (text : string) :
  (Spec.blank (llm_invoke (App.prompt text)) = true ->
   App.detect_toc llm_invoke json_loads text =
   (Json.VList [], ["Error: Empty response from LLM while detecting TOC."]))
  /\
  (Spec.blank (llm_invoke (App1.prompt text)) = true ->
   App1.detect_toc llm_invoke json_loads text =
   Py.Raise (Py.ValueError "Groq returned an empty response")).
Proof.
  split; intros B.
  - unfold App.detect_toc. now rewrite truthy_strip, B.
  - unfold App1.detect_toc. now rewrite truthy_strip, B.
Qed.

Lemma detect_toc_blank_response_witness :
  App.detect_toc (fun _ => "  " ++ Py.newline)%string Json.loads "Contents" =
  (Json.VList [], ["Error: Empty response from LLM while detecting TOC."])
  /\
  App1.detect_toc (fun _ => "  " ++ Py.newline)%string Json.loads "Contents" =
  Py.Raise (Py.ValueError "Groq returned an empty response").
Proof.
  destruct (detect_toc_blank_response
              (fun _ => "  " ++ Py.newline)%string Json.loads "Contents")
    as [H H1].
  split; [apply H | apply H1]; reflexivity.
Defined.

(** C3 as stated fails on [app.py]: on the empty response [detect_toc]
    returns the empty list. *)
Lemma detect_toc_empty_response_returns_list :
  App.detect_toc (fun _ => "") Json.loads "Contents" =
  (Json.VList [], ["Error: Empty response from LLM while detecting TOC."]).
Proof. reflexivity. Qed.

(** C4, as amended.  When the text extracted from the response is not
    valid JSON, [detect_toc] of [app.py] shows the fixed message
    "Error: Invalid JSON response from LLM while detecting TOC." and returns
    the empty list; [detect_toc] of [app1.py] raises [ValueError] with a
    message that carries the extracted text.  Neither returns any part of
    the text. *)
Theorem detect_toc_malformed_json
    (llm_invoke : string -> string)
    (json_loads : string -> option Json.value) (text extracted : string) :
  (Py.search App.toc_pattern (llm_invoke (App.prompt text)) = Some extracted ->
   json_loads extracted = None ->
   App.detect_toc llm_invoke json_loads text =
   (Json.VList [],
    ["Error: Invalid JSON response from LLM while detecting TOC."]))
  /\
  (Py.search App1.toc_pattern (llm_invoke (App1.prompt text)) = Some extracted ->
   json_loads extracted = None ->
   App1.detect_toc llm_invoke json_loads text =
   Py.Raise (Py.ValueError
               ("Failed to parse extracted JSON: " ++ extracted)%string)).
Proof.
  split; intros F D.
  - now rewrite (detect_toc_found _ _ _ _ F), D.
  - now rewrite (detect_toc1_found _ _ _ _ F), D.
Qed.

Lemma detect_toc_malformed_json_witness :
  App.detect_toc (fun _ => "Sure: [{x}] done") Json.loads "Contents" =
  (Json.VList [],
   ["Error: Invalid JSON response from LLM while detecting TOC."])
  /\
  App1.detect_toc (fun _ => "Sure: [{x}] done") Json.loads "Contents" =
  Py.Raise (Py.ValueError "Failed to parse extracted JSON: [{x}]").
Proof.
  destruct (detect_toc_malformed_json
              (fun _ => "Sure: [{x}] done") Json.loads "Contents" "[{x}]")
    as [H H1].
  split; [apply H | apply H1]; reflexivity.
Defined.

(** C4 as stated fails on [app.py]: the extracted text [[x]] is not valid
    JSON, and [detect_toc] returns the empty list with a message that does
    not carry it. *)
Lemma detect_toc_malformed_json_returns_list :
  Py.search App.toc_pattern "Sure: [x]" = Some "[x]"
  /\ Json.loads "[x]" = None
  /\ App.detect_toc (fun _ => "Sure: [x]") Json.loads "Contents" =
     (Json.VList [],
      ["Error: Invalid JSON response from LLM while detecting TOC."]).
Proof. repeat split. Qed.

Section WrappedArray.

Import Py Json Spec.

Variable llm_invoke : string -> string.
Variable json_loads : string -> option value.

(** [app.py]: the array is what lies between the first opening bracket and
    the last closing bracket of the response. *)
Lemma detect_toc_outermost (text pre body post : string) :
  llm_invoke (App.prompt text) = (pre ++ ("[" ++ body ++ "]") ++ post)%string ->
  lacks "[" pre = true ->
  lacks "]" post = true ->
  search App.toc_pattern (llm_invoke (App.prompt text))
  = Some ("[" ++ body ++ "]")%string
  /\ App.detect_toc llm_invoke json_loads text =
     match json_loads ("[" ++ body ++ "]")%string with
     | Some v => (v, [])
     | None =>
         (VList [],
          ["Error: Invalid JSON response from LLM while detecting TOC."])
     end.
Proof.
  intros E L1 L2.
  assert (F : search App.toc_pattern (llm_invoke (App.prompt text))
              = Some ("[" ++ body ++ "]")%string)
    by (rewrite E; now apply toc_pattern_search).
  split; [exact F|]. now apply detect_toc_found.
Qed.

(** [app1.py]: the array is found when it opens with an object and no
    closing bracket occurs inside it. *)
Lemma detect_toc1_object_array (text pre ws1 inner ws2 post : string) :
  llm_invoke (App1.prompt text)
  = (pre ++ ("[" ++ ws1 ++ "{" ++ inner ++ "}" ++ ws2 ++ "]") ++ post)%string ->
  lacks "[" pre = true ->
  blank ws1 = true ->
  lacks "]" inner = true ->
  blank ws2 = true ->
  App1.detect_toc llm_invoke json_loads text =
  match json_loads ("[" ++ ws1 ++ "{" ++ inner ++ "}" ++ ws2 ++ "]")%string with
  | Some v => Ok v
  | None =>
      Raise (ValueError
               ("Failed to parse extracted JSON: "
                ++ "[" ++ ws1 ++ "{" ++ inner ++ "}" ++ ws2 ++ "]")%string)
  end.
Proof.
  intros E L1 B1 L B2.
  apply detect_toc1_found. rewrite E. now apply toc_pattern1_search.
Qed.

(** [app1.py]: a response with no opening brace has no match. *)
Lemma detect_toc1_no_object (text : string) :
  blank (llm_invoke (App1.prompt text)) = false ->
  lacks "{" (llm_invoke (App1.prompt text)) = true ->
  App1.detect_toc llm_invoke json_loads text =
  Raise (ValueError
           ("Invalid JSON from Groq: " ++ llm_invoke (App1.prompt text))%string).
Proof.
  intros B L. unfold App1.detect_toc.
  now rewrite truthy_strip, B, (toc_pattern1_needs_brace _ L).
Qed.

End WrappedArray.

(** C7, as amended.  [app.py]: [detect_toc] takes the first match of the
    greedy, newline-spanning pattern [\[.*\]]; when the response is a JSON
    array wrapped in text with no opening bracket before it and no closing
    bracket after it, that match is the array and [detect_toc] returns what
    the array decodes to, with no message.  [app1.py]: [detect_toc] takes
    the first match of the lazy pattern [\[\s*\{.*?\}\s*\]] instead; it
    returns what the array decodes to when that array opens with an object,
    closes after one and holds no closing bracket inside, and it raises
    [ValueError] on a response that is not blank and has no opening
    brace. *)
Theorem detect_toc_wrapped_array
    (llm_invoke : string -> string)
    (json_loads : string -> option Json.value)
    (text pre body post ws1 inner ws2 : string) (records : Json.value) :
  (llm_invoke (App.prompt text) = (pre ++ ("[" ++ body ++ "]") ++ post)%string ->
   Spec.lacks "[" pre = true ->
   Spec.lacks "]" post = true ->
   json_loads ("[" ++ body ++ "]")%string = Some records ->
   Py.search App.toc_pattern (llm_invoke (App.prompt text))
   = Some ("[" ++ body ++ "]")%string
   /\ App.detect_toc llm_invoke json_loads text = (records, []))
  /\
  (llm_invoke (App1.prompt text)
   = (pre ++ ("[" ++ ws1 ++ "{" ++ inner ++ "}" ++ ws2 ++ "]") ++ post)%string ->
   Spec.lacks "[" pre = true ->
   Spec.blank ws1 = true ->
   Spec.lacks "]" inner = true ->
   Spec.blank ws2 = true ->
   json_loads ("[" ++ ws1 ++ "{" ++ inner ++ "}" ++ ws2 ++ "]")%string
   = Some records ->
   App1.detect_toc llm_invoke json_loads text = Py.Ok records)
  /\
  (Spec.blank (llm_invoke (App1.prompt text)) = false ->
   Spec.lacks "{" (llm_invoke (App1.prompt text)) = true ->
   App1.detect_toc llm_invoke json_loads text =
   Py.Raise
     (Py.ValueError
        ("Invalid JSON from Groq: " ++ llm_invoke (App1.prompt text))%string)).
Proof.
  split; [|split].
  - intros E L1 L2 D.
    destruct (detect_toc_outermost llm_invoke json_loads text pre body post
                E L1 L2) as [F R].
    split; [exact F|]. now rewrite R, D.
  - intros E L1 B1 L B2 D.
    rewrite (detect_toc1_object_array llm_invoke json_loads text pre ws1 inner
               ws2 post E L1 B1 L B2).
    now rewrite D.
  - apply detect_toc1_no_object.
Qed.

Lemma detect_toc_wrapped_array_witness :
  (Py.search App.toc_pattern Sample.fenced_response
   = Some ("[" ++ Sample.fenced_body ++ "]")%string
   /\ App.detect_toc (fun _ => Sample.fenced_response) Json.loads "Contents"
      = (Sample.fenced_records, []))
  /\ App1.detect_toc (fun _ => Sample.fenced_response) Json.loads "Contents"
     = Py.Ok Sample.fenced_records
  /\ App1.detect_toc (fun _ => "No chapters: []") Json.loads "Contents"
     = Py.Raise (Py.ValueError "Invalid JSON from Groq: No chapters: []").
Proof.
  destruct (detect_toc_wrapped_array
              (fun _ => Sample.fenced_response) Json.loads "Contents"
              Sample.fenced_pre Sample.fenced_body Sample.fenced_post
              "" Sample.fenced_inner "" Sample.fenced_records)
    as (H & H1 & _).
  destruct (detect_toc_wrapped_array
              (fun _ => "No chapters: []") Json.loads "Contents"
              "" "" "" "" "" "" Json.VNone)
    as (_ & _ & H2).
  split; [apply H | split; [apply H1 | apply H2]]; reflexivity.
Defined.

(** C7 as stated fails on [app1.py]: the empty array is a valid JSON array,
    wrapped here in text with no other bracket; [detect_toc] of [app.py]
    returns the empty list of records, that of [app1.py] finds no match of
    its pattern and raises. *)
Lemma detect_toc1_rejects_empty_array :
  Json.loads "[]" = Some (Json.VList [])
  /\ Py.search App.toc_pattern "Here is the TOC: []" = Some "[]"
  /\ App.detect_toc (fun _ => "Here is the TOC: []") Json.loads "Contents"
     = (Json.VList [], [])
  /\ Py.search App1.toc_pattern "Here is the TOC: []" = None
  /\ App1.detect_toc (fun _ => "Here is the TOC: []") Json.loads "Contents"
     = Py.Raise (Py.ValueError "Invalid JSON from Groq: Here is the TOC: []").
Proof. repeat split. Qed.

(* ================================================================== *)
(** * Page offset *)

(** With the stored page [d] of the first chapter present, shifting the
    stored range [(s, e)] with the declared page [f] gives
    [(s + (f - d), e + (f - d))], and shifting that result the other way
    round, by [d - f], gives back [(s, e)].  The order of [s] and [e] plays
    no part. *)
Lemma resolve_offset_roundtrip (s e d f : Z) :
  App.resolve s e f (Some d) = Py.Ok (s + (f - d), e + (f - d))
  /\ App.resolve (s + (f - d)) (e + (f - d)) d (Some f) = Py.Ok (s, e).
Proof.
  unfold App.resolve, App.int_sub, Py.bind. split; do 2 f_equal; f_equal; lia.
Qed.

(** With a first stored chapter that starts on page [d], not 0,
    [extract_chapter] reads the headings of the shifted range. *)
Lemma extract_chapter_shifted (doc : Fitz.document) (s e f d : Z)
      (n t : string) (ep : option Z) (rest : Db.table) :
  d <> 0 ->
  App.extract_chapter ((n, t, Some d, ep) :: rest) doc s e f =
  Py.Ok (App.extract_headings doc (s + (f - d)) (e + (f - d))).
Proof.
  intros Hd. unfold App.extract_chapter, App.get_first_chapter_start_page.
  simpl. destruct (Z.eqb_spec d 0); [contradiction | reflexivity].
Qed.

(** The anchor read from a table whose first row starts on page [d]. *)
Lemma anchor_of_first_row (d : Z) (n t : string) (ep : option Z)
      (rest : Db.table) :
  App.get_first_chapter_start_page ((n, t, Some d, ep) :: rest)
  = if d =? 0 then None else Some d.
Proof. reflexivity. Qed.

(** C5.  The offset arithmetic holds of the code for every stored page [d]
    of the first chapter but 0: for all integers [s], [e], [f], in any
    order, the range read is [(s + (f - d), e + (f - d))], and shifting
    that range the other way round, with [f] as the stored page and [d] as
    the declared one, gives back [(s, e)] when [f] is not 0.  On a store
    whose first chapter starts on page 0 the code departs from it:
    [get_first_chapter_start_page] reads the 0 as [None] and
    [extract_chapter] raises [TypeError] at the subtraction, whatever [s],
    [e] and [f] are, where the arithmetic gives [(s + f, e + f)]. *)
Theorem offset_resolution_fails_at_stored_page_zero
    (doc : Fitz.document) (s e d f : Z) (n t : string) (ep : option Z)
    (rest : Db.table) :
  let none_minus :=
    Py.TypeError "unsupported operand type(s) for -: 'int' and 'NoneType'" in
  let stored (p : Z) : Db.table := (n, t, Some p, ep) :: rest in
  App.get_first_chapter_start_page (stored d)
  = (if d =? 0 then None else Some d)
  /\ App.resolve s e f (App.get_first_chapter_start_page (stored d))
     = (if d =? 0 then Py.Raise none_minus
        else Py.Ok (s + (f - d), e + (f - d)))
  /\ App.resolve (s + (f - d)) (e + (f - d)) d
       (App.get_first_chapter_start_page (stored f))
     = (if f =? 0 then Py.Raise none_minus else Py.Ok (s, e))
  /\ App.extract_chapter (stored d) doc s e f
     = (if d =? 0 then Py.Raise none_minus
        else Py.Ok (App.extract_headings doc (s + (f - d)) (e + (f - d))))
  /\ App.extract_chapter (stored 0) doc s e f = Py.Raise none_minus.
Proof.
  intros none_minus stored. unfold stored.
  unfold App.extract_chapter. rewrite !anchor_of_first_row.
  split; [reflexivity|].
  destruct (resolve_offset_roundtrip s e d f) as [R1 R2].
  repeat split.
  - destruct (d =? 0); [reflexivity | exact R1].
  - destruct (f =? 0); [reflexivity | exact R2].
  - destruct (d =? 0); [reflexivity | now rewrite R1].
Qed.

(** The failing store is one the program builds: a first record that
    starts on page 0 is saved, read back without its start page and leaves
    the store without an anchor, so the request for pages 1 to 2 with the
    first chapter declared on page 2 raises. *)
Example anchor_zero_is_reachable :
  App.save_chapters_to_db [Sample.chapter_zero; Sample.chapter_A] []
  = ([Spec.row_of Sample.chapter_zero; Spec.row_of Sample.chapter_A], None)
  /\ App.get_first_chapter_start_page
       [Spec.row_of Sample.chapter_zero; Spec.row_of Sample.chapter_A]
     = None
  /\ App.extract_chapter
       [Spec.row_of Sample.chapter_zero; Spec.row_of Sample.chapter_A]
       Sample.book 1 2 2
     = Py.Raise
         (Py.TypeError
            "unsupported operand type(s) for -: 'int' and 'NoneType'").
Proof. repeat split. Qed.

(** C2, as amended.  With no chapter in the store the anchor is taken to be
    page 1 and the shift is done with it: [extract_chapter] reads the range
    moved by [f - 1].  When the first stored row has no start page,
    [extract_chapter] fails, with the [TypeError] of the subtraction, and
    no value is put in its place. *)
Theorem extract_chapter_without_anchor
    (db : Db.table) (doc : Fitz.document) (s e f : Z) :
  (db = [] ->
   App.get_first_chapter_start_page db = Some 1
   /\ App.extract_chapter db doc s e f =
      Py.Ok (App.extract_headings doc (s + (f - 1)) (e + (f - 1))))
  /\
  (forall n t ep rest,
     db = (n, t, None, ep) :: rest ->
     App.extract_chapter db doc s e f =
     Py.Raise
       (Py.TypeError "unsupported operand type(s) for -: 'int' and 'NoneType'")).
Proof.
  split.
  - intros ->. split; reflexivity.
  - intros n t ep rest ->. reflexivity.
Qed.

Lemma extract_chapter_without_anchor_witness :
  (App.get_first_chapter_start_page [] = Some 1
   /\ App.extract_chapter [] Sample.book 1 2 2 =
      Py.Ok (App.extract_headings Sample.book (1 + (2 - 1)) (2 + (2 - 1))))
  /\ App.extract_chapter [("1", "Introduction", None, Some 10)]
       Sample.book 1 2 2 =
     Py.Raise
       (Py.TypeError "unsupported operand type(s) for -: 'int' and 'NoneType'").
Proof.
  split.
  - apply (extract_chapter_without_anchor [] Sample.book 1 2 2). reflexivity.
  - apply (extract_chapter_without_anchor
             [("1", "Introduction", None, Some 10)] Sample.book 1 2 2)
      with (n := "1") (t := "Introduction") (ep := Some 10) (rest := []).
    reflexivity.
Defined.

(** C2 as stated fails: with an empty store the anchor is 1 and the
    extraction succeeds, on the pages 2 to 3 of the sample. *)
Lemma extract_chapter_empty_store_succeeds :
  App.get_chapters_from_db [] = []
  /\ App.get_first_chapter_start_page [] = Some 1
  /\ App.extract_chapter [] Sample.book 1 2 2 =
     Py.Ok ("Title one" ++ Py.newline ++ "Sub" ++ Py.newline ++ "bold note")%string.
Proof.
  split; [reflexivity|]. split; [reflexivity|]. vm_compute. reflexivity.
Qed.

(* ================================================================== *)
(** * The chapter store *)

Section StoreFacts.

Import Db Spec.

Lemma for_each_append {A B : Type} (f : A -> list B) (l : list A)
      (acc : list B) :
  for_each l (fun acc x => acc ++ f x) acc = acc ++ flat_map f l.
Proof.
  unfold for_each. revert acc.
  induction l as [|x l IH]; intros acc; simpl.
  - now rewrite app_nil_r.
  - now rewrite IH, app_assoc.
Qed.

Lemma for_each_ext {A S : Type} (f g : S -> A -> S) (l : list A) (init : S) :
  (forall s x, f s x = g s x) -> for_each l f init = for_each l g init.
Proof.
  intros E. unfold for_each. revert init.
  induction l as [|x l IH]; intros init; simpl; [reflexivity|].
  now rewrite E, IH.
Qed.

Lemma flat_map_filter_map {A B : Type} (p : A -> bool) (f : A -> B)
      (l : list A) :
  flat_map (fun x => if p x then [f x] else []) l = map f (filter p l).
Proof.
  induction l as [|x l IH]; simpl; [reflexivity|].
  destruct (p x); simpl; now rewrite IH.
Qed.

Lemma has_bounds_test (c : chapter) :
  negb (App.is_None (start_page c) || App.is_None (end_page c)) = has_bounds c.
Proof. unfold has_bounds. now destruct (start_page c), (end_page c). Qed.

(** What the insertion loop of [app.py] has written when it ends. *)
Lemma save_loop_written (chapters : list chapter) (rows : table) :
  for_each chapters
    (fun written chapter =>
       Py.bind written
         (fun rows =>
            if negb (App.is_None (start_page chapter)
                     || App.is_None (end_page chapter))
            then insert rows (chapter_number chapter, title chapter,
                              start_page chapter, end_page chapter)
            else Py.Ok rows))
    (Py.Ok rows)
  = if forallb storable (filter has_bounds chapters)
    then Py.Ok (rows ++ map row_of (filter has_bounds chapters))
    else Py.Raise overflow.
Proof.
  unfold for_each. revert rows.
  induction chapters as [|c l IH]; intros rows; simpl.
  - now rewrite app_nil_r.
  - rewrite has_bounds_test. destruct (has_bounds c) eqn:B; [|apply IH].
    unfold insert. simpl forallb. fold (storable c).
    destruct (storable c); simpl.
    + rewrite IH. fold (row_of c).
      destruct (forallb storable (filter has_bounds l)); [|reflexivity].
      now rewrite <- app_assoc.
    + clear. induction l as [|x l IH]; [reflexivity | exact IH].
Qed.

(** What [save_chapters_to_db] of [app.py] does: the records that have both
    page bounds replace the rows of the table, unless one of them has a
    page that does not bind; then the call raises and the table stays. *)
Lemma save_chapters_outcome (chapters : list chapter) (db : table) :
  App.save_chapters_to_db chapters db =
  if forallb storable (filter has_bounds chapters)
  then (map row_of (filter has_bounds chapters), None)
  else (db, Some overflow).
Proof.
  unfold App.save_chapters_to_db. rewrite save_loop_written.
  now destruct (forallb storable (filter has_bounds chapters)).
Qed.

Lemma save_chapters_returned (chapters : list chapter) (db db' : table) :
  App.save_chapters_to_db chapters db = (db', None) ->
  db' = map row_of (filter has_bounds chapters).
Proof.
  rewrite save_chapters_outcome.
  destruct (forallb storable (filter has_bounds chapters));
    intros H; [now injection H as <- | discriminate].
Qed.

Lemma forallb_filter {A : Type} (p q : A -> bool) (l : list A) :
  forallb p l = true -> forallb p (filter q l) = true.
Proof.
  induction l as [|x l IH]; simpl; [reflexivity|].
  intros H. apply andb_true_iff in H. destruct H as [Hx H].
  destruct (q x); simpl; [rewrite Hx|]; auto.
Qed.

Lemma rows_have_bounds (chapters : list chapter) :
  Forall row_has_bounds (map row_of (filter has_bounds chapters)).
Proof.
  induction chapters as [|c l IH]; simpl; [constructor|].
  destruct (has_bounds c) eqn:B; [|exact IH].
  simpl. constructor; [|exact IH].
  unfold has_bounds in B. unfold row_of, row_has_bounds.
  destruct (start_page c), (end_page c); try discriminate.
  split; discriminate.
Qed.

Lemma int_if_nonzero (x : option Z) : x <> Some 0 -> App.int_if x = x.
Proof.
  destruct x as [n|]; simpl; [|reflexivity].
  intros H. destruct (Z.eqb_spec n 0); [subst; contradiction | reflexivity].
Qed.

(** Reading back rows whose page numbers are not 0 gives the records. *)
Lemma get_chapters_rows (chapters : list chapter) :
  Forall nonzero_bounds chapters ->
  App.get_chapters_from_db (map row_of chapters) = chapters.
Proof.
  unfold App.get_chapters_from_db.
  induction 1 as [|c l [Hs He] _ IH]; simpl; [reflexivity|].
  rewrite IH, (int_if_nonzero _ Hs), (int_if_nonzero _ He).
  now destruct c.
Qed.

Lemma Forall_filter {A : Type} (P : A -> Prop) (p : A -> bool) (l : list A) :
  Forall P l -> Forall P (filter p l).
Proof.
  induction 1 as [|x l Hx _ IH]; simpl; [constructor|].
  destruct (p x); [now constructor | exact IH].
Qed.

Lemma filter_all {A : Type} (p : A -> bool) (l : list A) :
  forallb p l = true -> filter p l = l.
Proof.
  induction l as [|x l IH]; simpl; [reflexivity|].
  intros H. apply andb_true_iff in H. destruct H as [Hx H].
  now rewrite Hx, IH.
Qed.

Lemma filter_none {A : Type} (p : A -> bool) (l : list A) :
  forallb (fun x => negb (p x)) l = true -> filter p l = [].
Proof.
  induction l as [|x l IH]; simpl; [reflexivity|].
  intros H. apply andb_true_iff in H. destruct H as [Hx H].
  apply negb_true_iff in Hx. now rewrite Hx, IH.
Qed.

End StoreFacts.

(** C6, as amended.  For every pair of record lists whose page numbers fit
    an INTEGER of SQLite, saving the first and then the second leaves in
    the store exactly the records of the second list that have both page
    bounds, in the order of that list, and nothing of the first; reading
    the store gives them back in that order when no page number is 0.  So
    when every record of the second list has both bounds, none 0, the store
    reads back as that list.  When a record of the second list that has
    both bounds has a page that does not fit, the second save raises
    [OverflowError] and the store stays as the first save left it. *)
Theorem save_replaces_all (first second : list Db.chapter) (db : Db.table) :
  let db1 := fst (App.save_chapters_to_db first db) in
  (forallb Spec.storable second = true ->
   App.save_chapters_to_db second db1
   = (map Spec.row_of (filter Spec.has_bounds second), None)
   /\ (Forall Spec.nonzero_bounds second ->
       App.get_chapters_from_db (fst (App.save_chapters_to_db second db1))
       = filter Spec.has_bounds second)
   /\ (Forall Spec.nonzero_bounds second ->
       forallb Spec.has_bounds second = true ->
       App.get_chapters_from_db (fst (App.save_chapters_to_db second db1))
       = second))
  /\ (forallb Spec.storable (filter Spec.has_bounds second) = false ->
      App.save_chapters_to_db second db1 = (db1, Some Db.overflow)).
Proof.
  intros db1. split.
  - intros S. rewrite save_chapters_outcome, (forallb_filter _ _ _ S).
    split; [reflexivity|]. simpl fst. split.
    + intros N. apply get_chapters_rows. now apply Forall_filter.
    + intros N B. rewrite (filter_all _ _ B). now apply get_chapters_rows.
  - intros S. now rewrite save_chapters_outcome, S.
Qed.

Lemma save_replaces_all_witness :
  App.get_chapters_from_db
    (fst (App.save_chapters_to_db [Sample.chapter_C]
            (fst (App.save_chapters_to_db
                    [Sample.chapter_A; Sample.chapter_B] []))))
  = [Sample.chapter_C]
  /\ App.save_chapters_to_db [Sample.chapter_huge]
       (fst (App.save_chapters_to_db [Sample.chapter_A; Sample.chapter_B] []))
     = ([Spec.row_of Sample.chapter_A; Spec.row_of Sample.chapter_B],
        Some Db.overflow).
Proof.
  split.
  - apply (save_replaces_all [Sample.chapter_A; Sample.chapter_B]
             [Sample.chapter_C] []).
    + reflexivity.
    + repeat constructor; discriminate.
    + reflexivity.
  - apply (save_replaces_all [Sample.chapter_A; Sample.chapter_B]
             [Sample.chapter_huge] []).
    reflexivity.
Defined.

(** C6 as stated fails: a record with no end page, saved after two others,
    is not in the store afterwards; the save returns and the store is
    empty. *)
Lemma save_then_load_loses_record :
  App.save_chapters_to_db [Sample.chapter_open]
    (fst (App.save_chapters_to_db [Sample.chapter_A; Sample.chapter_B] []))
  = ([], None)
  /\ App.get_chapters_from_db
       (fst (App.save_chapters_to_db [Sample.chapter_open]
               (fst (App.save_chapters_to_db
                       [Sample.chapter_A; Sample.chapter_B] []))))
     = [].
Proof. split; reflexivity. Qed.

(** C10.  [save_chapters_to_db] of [app.py] inserts the records that have
    both page bounds and drops the others without a word: when the call
    returns, the store holds the rows of those records and no other, each
    with both its page numbers.  The only call that does not return is one
    given such a record with a page that does not fit an INTEGER of SQLite:
    it raises [OverflowError] and the store stays as it was, so a store
    whose rows all have both page numbers keeps that property through every
    call.  When every record given lacks a bound the call returns and the
    store is left empty, also through the "Detect the Index" button when
    the list is not empty. *)
Theorem save_drops_unbounded (chapters : list Db.chapter) (db : Db.table) :
  App.save_chapters_to_db chapters db
  = (if forallb Spec.storable (filter Spec.has_bounds chapters)
     then (map Spec.row_of (filter Spec.has_bounds chapters), None)
     else (db, Some Db.overflow))
  /\ (snd (App.save_chapters_to_db chapters db) = None ->
      fst (App.save_chapters_to_db chapters db)
      = map Spec.row_of (filter Spec.has_bounds chapters)
      /\ Forall Spec.row_has_bounds (fst (App.save_chapters_to_db chapters db)))
  /\ (Forall Spec.row_has_bounds db ->
      Forall Spec.row_has_bounds (fst (App.save_chapters_to_db chapters db)))
  /\ (forallb (fun c => negb (Spec.has_bounds c)) chapters = true ->
      App.save_chapters_to_db chapters db = ([], None)
      /\ (chapters <> [] -> App.on_detected chapters db = ([], [], None))).
Proof.
  pose proof (rows_have_bounds chapters) as R.
  rewrite save_chapters_outcome.
  split; [reflexivity|]. split; [|split].
  - destruct (forallb Spec.storable (filter Spec.has_bounds chapters));
      simpl; [now split | discriminate].
  - intros D.
    now destruct (forallb Spec.storable (filter Spec.has_bounds chapters)).
  - intros N. rewrite (filter_none _ _ N). simpl. split; [reflexivity|].
    intros NE. destruct chapters as [|c l]; [contradiction|].
    unfold App.on_detected. rewrite save_chapters_outcome.
    now rewrite (filter_none _ _ N).
Qed.

Lemma save_drops_unbounded_witness :
  App.save_chapters_to_db [Sample.chapter_open]
    [Spec.row_of Sample.chapter_A] = ([], None)
  /\ App.on_detected [Sample.chapter_open] [Spec.row_of Sample.chapter_A]
     = ([], [], None).
Proof.
  destruct (save_drops_unbounded [Sample.chapter_open]
              [Spec.row_of Sample.chapter_A]) as (_ & _ & _ & H).
  destruct (H eq_refl) as [H1 H2].
  split; [exact H1 | apply H2; discriminate].
Defined.

(* ================================================================== *)
(** * Page ranges *)

Section PageFacts.

Import Fitz Spec.

Variable B : Type.
Variable G : page -> list B.

Lemma gathered_shift (doc : document) (i s e : Z) :
  gathered G (i + 1) doc (s + 1) (e + 1) = gathered G i doc s e.
Proof.
  unfold gathered. revert i.
  induction doc as [|p doc IH]; intros i; simpl; [reflexivity|].
  rewrite IH. f_equal. unfold App.in_range.
  replace (s + 1 <=? i + 1 + 1) with (s <=? i + 1)
    by (destruct (Z.leb_spec s (i + 1)), (Z.leb_spec (s + 1) (i + 1 + 1));
        lia || reflexivity).
  replace (i + 1 + 1 <=? e + 1) with (i + 1 <=? e)
    by (destruct (Z.leb_spec (i + 1) e), (Z.leb_spec (i + 1 + 1) (e + 1));
        lia || reflexivity).
  reflexivity.
Qed.

Lemma pages_between_cons (p : page) (doc : document) (s e : Z) :
  pages_between (p :: doc) s e =
  (if App.in_range s e 0 then [p] else []) ++ pages_between doc (s - 1) (e - 1).
Proof.
  unfold pages_between, App.in_range. simpl Z.add.
  destruct (Z.leb_spec s 1) as [Hs | Hs].
  - rewrite (Z.max_r s 1) by lia. rewrite (Z.max_r (s - 1) 1) by lia.
    simpl skipn.
    destruct (Z.leb_spec 1 e) as [He | He]; simpl andb; cbv iota.
    + replace (Z.to_nat (e - 1 + 1)) with (S (Z.to_nat (e - 1 - 1 + 1)))
        by lia.
      reflexivity.
    + replace (Z.to_nat (e - 1 + 1)) with O by lia.
      replace (Z.to_nat (e - 1 - 1 + 1)) with O by lia.
      reflexivity.
  - rewrite (Z.max_l s 1) by lia. rewrite (Z.max_l (s - 1) 1) by lia.
    simpl andb. cbv iota.
    replace (Z.to_nat (s - 1)) with (S (Z.to_nat (s - 1 - 1))) by lia.
    simpl skipn. simpl app.
    now replace (e - 1 - (s - 1) + 1) with (e - s + 1) by lia.
Qed.

(** The loop gathers from the pages of the range, in order. *)
Lemma gathered_pages (doc : document) (s e : Z) :
  gathered G 0 doc s e = flat_map G (pages_between doc s e).
Proof.
  revert s e. induction doc as [|p doc IH]; intros s e.
  - unfold pages_between. simpl. now rewrite skipn_nil, firstn_nil.
  - rewrite pages_between_cons, flat_map_app, <- IH.
    change (gathered G 0 (p :: doc) s e)
      with ((if App.in_range s e 0 then G p else [])
            ++ gathered G (0 + 1) doc s e).
    f_equal.
    + destruct (App.in_range s e 0); simpl; [now rewrite app_nil_r|reflexivity].
    + rewrite <- (gathered_shift doc 0 (s - 1) (e - 1)).
      now replace (s - 1 + 1) with s by lia;
        replace (e - 1 + 1) with e by lia.
Qed.

Lemma for_each_gathered (doc : document) (s e : Z) (acc : list B) :
  for_each (enumerate doc)
    (fun acc '(i, page) => if App.in_range s e i then acc ++ G page else acc)
    acc
  = acc ++ flat_map G (pages_between doc s e).
Proof.
  rewrite <- gathered_pages. unfold gathered, enumerate.
  rewrite <- for_each_append. apply for_each_ext.
  intros a [i p]. simpl.
  destruct (App.in_range s e i); [reflexivity | now rewrite app_nil_r].
Qed.

End PageFacts.

Lemma pages_between_empty (doc : Fitz.document) (s e : Z) :
  e < s \/ e < 1 \/ Z.of_nat (List.length doc) < s ->
  Spec.pages_between doc s e = [].
Proof.
  unfold Spec.pages_between. intros [H | [H | H]].
  - now replace (Z.to_nat (e - Z.max s 1 + 1)) with O by lia.
  - now replace (Z.to_nat (e - Z.max s 1 + 1)) with O by lia.
  - rewrite skipn_all2 by lia. apply firstn_nil.
Qed.

(** The pages of the range are the pages at the positions of the range. *)
Lemma pages_between_In (doc : Fitz.document) (s e : Z) (p : Fitz.page) :
  In p (Spec.pages_between doc s e) <->
  exists i : nat, nth_error doc i = Some p /\ s <= Z.of_nat i + 1 <= e.
Proof.
  revert s e. induction doc as [|q doc IH]; intros s e.
  - unfold Spec.pages_between. rewrite skipn_nil, firstn_nil. split.
    + intros [].
    + intros ([|i] & H & _); discriminate.
  - rewrite pages_between_cons, in_app_iff, IH. unfold App.in_range. split.
    + intros [H | (i & H & R)].
      * destruct (Z.leb_spec s (0 + 1)), (Z.leb_spec (0 + 1) e);
          simpl in H; try tauto.
        destruct H as [-> | []]. exists O. split; [reflexivity | lia].
      * exists (S i). split; [exact H | lia].
    + intros ([|i] & H & R).
      * left. injection H as ->.
        destruct (Z.leb_spec s (0 + 1)), (Z.leb_spec (0 + 1) e);
          simpl; try lia. now left.
      * right. exists i. split; [exact H | lia].
Qed.

Lemma map_as_flat_map {A B : Type} (f : A -> B) (l : list A) :
  flat_map (fun x => [f x]) l = map f l.
Proof. induction l as [|x l IH]; simpl; congruence. Qed.

Lemma extract_text_pages (doc : Fitz.document) (s e : Z) :
  App.extract_text_from_pdf doc s e =
  Py.join Py.newline (map Fitz.get_text_text (Spec.pages_between doc s e)).
Proof.
  unfold App.extract_text_from_pdf.
  pose proof (for_each_gathered _ (fun p => [Fitz.get_text_text p]) doc s e [])
    as H.
  cbv beta in H. rewrite H, map_as_flat_map. simpl app.
  now destruct (map Fitz.get_text_text (Spec.pages_between doc s e)).
Qed.

(** C9.  [extract_text_from_pdf] returns the plain texts of the pages whose
    1-indexed position lies in [[start_page, end_page]], joined by newlines
    in physical order; when the range holds no page (it is empty, or ends
    before page 1, or starts after the last page) the result is the empty
    string. *)
Theorem extract_text_range (doc : Fitz.document) (start_page end_page : Z) :
  App.extract_text_from_pdf doc start_page end_page =
  Py.join Py.newline
    (map Fitz.get_text_text (Spec.pages_between doc start_page end_page))
  /\ (end_page < start_page \/ end_page < 1
      \/ Z.of_nat (List.length doc) < start_page ->
      App.extract_text_from_pdf doc start_page end_page = "").
Proof.
  split; [apply extract_text_pages|].
  intros H. now rewrite extract_text_pages, (pages_between_empty _ _ _ H).
Qed.

Lemma extract_text_range_witness :
  App.extract_text_from_pdf Sample.book 3 2 = ""
  /\ App.extract_text_from_pdf Sample.book 4 9 = "".
Proof.
  split.
  - apply (extract_text_range Sample.book 3 2). left. lia.
  - apply (extract_text_range Sample.book 4 9). right. right. simpl. lia.
Defined.

(* ================================================================== *)
(** * Chapter extraction: the second pass *)

Section CollectFacts.

Import Fitz Spec.

Variable selected : list Q.

Lemma collect_spans_loop (l : list span) (headings : list string) :
  for_each l
    (fun headings span =>
       if App.keep selected span then headings ++ [text span] else headings)
    headings
  = headings ++ map text (filter (App.keep selected) l).
Proof.
  rewrite <- flat_map_filter_map, <- for_each_append.
  apply for_each_ext. intros h sp.
  destruct (App.keep selected sp); [reflexivity | now rewrite app_nil_r].
Qed.

Lemma collect_lines_loop (ls : list line) (headings : list string) :
  for_each ls
    (fun headings line =>
       for_each (spans line)
         (fun headings span =>
            if App.keep selected span then headings ++ [text span]
            else headings)
         headings)
    headings
  = headings ++ map text (filter (App.keep selected) (flat_map spans ls)).
Proof.
  rewrite (for_each_ext _
             (fun h line =>
                h ++ map text (filter (App.keep selected) (spans line))))
    by (intros h line; apply collect_spans_loop).
  rewrite for_each_append. f_equal.
  induction ls as [|x ls IH]; simpl; [reflexivity|].
  now rewrite filter_app, map_app, IH.
Qed.

Lemma collect_blocks_loop (bs : list block) (headings : list string) :
  for_each bs
    (fun headings block =>
       match lines block with
       | Some block_lines =>
           for_each block_lines
             (fun headings line =>
                for_each (spans line)
                  (fun headings span =>
                     if App.keep selected span then headings ++ [text span]
                     else headings)
                  headings)
             headings
       | None => headings
       end)
    headings
  = headings
    ++ map text (filter (App.keep selected) (flat_map block_spans bs)).
Proof.
  rewrite (for_each_ext _
             (fun h b =>
                h ++ map text (filter (App.keep selected) (block_spans b)))).
  - rewrite for_each_append. f_equal.
    induction bs as [|x bs IH]; simpl; [reflexivity|].
    now rewrite filter_app, map_app, IH.
  - intros h b. unfold block_spans. destruct (lines b).
    + apply collect_lines_loop.
    + simpl. now rewrite app_nil_r.
Qed.

(** The second pass keeps, in order, the texts of the spans of the range
    that pass the test. *)
Lemma collect_spans (doc : document) (s e : Z) :
  App.collect doc s e selected =
  map text (filter (App.keep selected) (spans_between doc s e)).
Proof.
  unfold App.collect.
  rewrite (for_each_ext _
             (fun h '(i, page) =>
                if App.in_range s e i
                then h ++ map text
                            (filter (App.keep selected)
                                    (flat_map block_spans (get_text_blocks page)))
                else h)).
  - pose proof (for_each_gathered _
                  (fun page =>
                     map text
                       (filter (App.keep selected)
                          (flat_map block_spans (get_text_blocks page))))
                  doc s e []) as H.
    cbv beta in H. rewrite H. clear H. simpl app.
    unfold spans_between.
    induction (pages_between doc s e) as [|p l IH]; simpl; [reflexivity|].
    rewrite filter_app, map_app, IH. reflexivity.
  - intros h [i p]. destruct (App.in_range s e i); [|reflexivity].
    apply collect_blocks_loop.
Qed.

Lemma keep_iff (sp : span) :
  App.keep selected sp = true <-> size_selected selected sp \/ styled sp.
Proof.
  unfold App.keep, size_selected, styled.
  rewrite !orb_true_iff, existsb_exists. split.
  - intros [[(x & Hx & E) | H] | H].
    + left. exists x. split; [exact Hx | now apply Qeq_bool_iff].
    + right. left. now destruct (color sp).
    + right. right. now destruct (bold sp).
  - intros [(x & Hx & E) | [H | H]].
    + left. left. exists x. split; [exact Hx | now apply Qeq_bool_iff].
    + left. right. now destruct (color sp).
    + right. now destruct (bold sp).
Qed.

Lemma kept_span_collected (doc : document) (s e : Z) (sp : span) :
  In sp (spans_between doc s e) ->
  size_selected selected sp \/ styled sp ->
  In (text sp) (App.collect doc s e selected).
Proof.
  intros I K. rewrite collect_spans. apply in_map, filter_In.
  split; [exact I | now apply keep_iff].
Qed.

End CollectFacts.

Lemma extract_headings_joined (doc : Fitz.document) (s e : Z) :
  App.extract_headings doc s e =
  Py.join Py.newline (App.collect doc s e (Spec.selected_sizes doc s e)).
Proof.
  unfold App.extract_headings, Spec.selected_sizes.
  destruct (App.select_sizes (App.count_words doc s e)) as [sel total].
  simpl fst. now destruct (App.collect doc s e sel).
Qed.

Lemma span_in_range (doc : Fitz.document) (s e : Z) (i : nat)
      (page : Fitz.page) (block : Fitz.block) (block_lines : list Fitz.line)
      (line : Fitz.line) (sp : Fitz.span) :
  nth_error doc i = Some page ->
  s <= Z.of_nat i + 1 <= e ->
  In block (Fitz.get_text_blocks page) ->
  Fitz.lines block = Some block_lines ->
  In line block_lines ->
  In sp (Fitz.spans line) ->
  In sp (Spec.spans_between doc s e).
Proof.
  intros Hp R Hb Hl Hline Hsp. unfold Spec.spans_between.
  apply in_flat_map. exists page. split.
  - apply pages_between_In. now exists i.
  - apply in_flat_map. exists block. split; [exact Hb|].
    unfold Spec.block_spans. rewrite Hl.
    apply in_flat_map. now exists line.
Qed.

(** C8.  In the second pass, every span of a text block of a page of the
    range whose size is one of the selected sizes, and every such span that
    has a [bold] or a [color] key whatever its size, is emitted: its text is
    among the collected headings and occurs in the text [extract_headings]
    returns. *)
Theorem styled_or_selected_span_emitted
    (doc : Fitz.document) (start_page end_page : Z) (i : nat)
    (page : Fitz.page) (block : Fitz.block) (block_lines : list Fitz.line)
    (line : Fitz.line) (sp : Fitz.span) :
  nth_error doc i = Some page ->
  start_page <= Z.of_nat i + 1 <= end_page ->
  In block (Fitz.get_text_blocks page) ->
  Fitz.lines block = Some block_lines ->
  In line block_lines ->
  In sp (Fitz.spans line) ->
  Spec.size_selected (Spec.selected_sizes doc start_page end_page) sp
  \/ Spec.styled sp ->
  In (Fitz.text sp)
     (App.collect doc start_page end_page
        (Spec.selected_sizes doc start_page end_page))
  /\ Spec.occurs_in (Fitz.text sp)
       (App.extract_headings doc start_page end_page).
Proof.
  intros Hp R Hb Hl Hline Hsp K.
  assert (I := span_in_range doc start_page end_page i page block block_lines
                 line sp Hp R Hb Hl Hline Hsp).
  assert (C := kept_span_collected _ doc start_page end_page sp I K).
  split; [exact C|].
  rewrite extract_headings_joined. now apply join_occurs.
Qed.

Lemma styled_or_selected_span_emitted_witness :
  In "bold note"%string
     (App.collect Sample.book 2 3 (Spec.selected_sizes Sample.book 2 3))
  /\ Spec.occurs_in "bold note" (App.extract_headings Sample.book 2 3).
Proof.
  apply (styled_or_selected_span_emitted Sample.book 2 3 2%nat
           Sample.page_three (Sample.text_block Sample.page_three_spans)
           [Sample.text_line Sample.page_three_spans]
           (Sample.text_line Sample.page_three_spans) Sample.bold_note).
  - reflexivity.
  - simpl. lia.
  - right. left. reflexivity.
  - reflexivity.
  - left. reflexivity.
  - right. left. reflexivity.
  - right. right. discriminate.
Defined.

(** The sample of C8 in full: the selected sizes are 20 and 14; the bold
    span of size 8 is in the output, the plain span of size 8 is not. *)
Example bold_span_below_cutoff :
  Spec.selected_sizes Sample.book 2 3 = [Sample.pt 20; Sample.pt 14]
  /\ App.extract_headings Sample.book 2 3 =
     ("Title one" ++ Py.newline ++ "Sub" ++ Py.newline ++ "bold note")%string.
Proof. split; vm_compute; reflexivity. Qed.

(* ================================================================== *)
(** * Chapter extraction: the selection of sizes *)

Section SelectFacts.

(** The running total never passes the budget. *)
Lemma select_loop_bound (l : list (Q * Z)) (selected : list Q) (total : Z) :
  total <= App.max_words ->
  snd (App.select_loop l selected total) <= App.max_words.
Proof.
  revert selected total.
  induction l as [|[size words] l IH]; intros selected total H; simpl.
  - exact H.
  - destruct (Z.leb_spec (total + words) App.max_words) as [L | L].
    + now apply IH.
    + exact H.
Qed.

(** The orders in which three entries can have been inserted. *)
Lemma permutation_of_three {A : Type} (a b c : A) (l : list A) :
  Permutation l [a; b; c] ->
  l = [a; b; c] \/ l = [a; c; b] \/ l = [b; a; c]
  \/ l = [b; c; a] \/ l = [c; a; b] \/ l = [c; b; a].
Proof.
  intros P.
  destruct (Permutation_vs_cons_inv P) as (l1 & l2 & E).
  rewrite E in P.
  apply Permutation_sym, Permutation_cons_app_inv in P.
  apply Permutation_length_2_inv in P.
  destruct l1 as [|p [|q [|r l1]]]; simpl in E, P.
  - subst l. destruct P as [-> | ->]; auto.
  - subst l. destruct P as [P | P]; injection P as -> ->; auto 6.
  - subst l. destruct P as [P | P]; injection P as -> -> ->; auto 7.
  - exfalso.
    destruct P as [P | P]; apply (f_equal (@List.length A)) in P;
      simpl in P; rewrite length_app in P; simpl in P; lia.
Qed.

(** The comparison of the sort keys of two sizes that equal given
    rationals. *)
Lemma sort_key_le (a b ca cb : Q) (v : bool) :
  (a == ca)%Q -> (b == cb)%Q ->
  Qle_bool (- ca) (- cb) = v ->
  Qle_bool (- a) (- b) = v.
Proof. intros Ha Hb <-. now rewrite Ha, Hb. Qed.

End SelectFacts.

Ltac sort_keys :=
  repeat
    (match goal with
     | Ha : (?a == ?ca)%Q, Hb : (?b == ?cb)%Q
       |- context [Qle_bool (- ?a) (- ?b)] =>
         let v := eval vm_compute in (Qle_bool (- ca) (- cb)) in
         rewrite (sort_key_le a b ca cb v Ha Hb eq_refl)
     end;
     cbn [App.insert_by_key fst]).

(** C1, as amended.  On the histogram [{20: 500, 14: 1800, 10: 5000}],
    whatever the order in which the sizes were met, the loop tests a size
    before it accepts it: size 20 is accepted, size 14 is not, since
    500 + 1800 is more than 2000, and the loop stops there.  The selected
    sizes are [[20]] and the total is 500 words.  On every histogram the
    total stays within the budget of 2000 words. *)
Theorem select_sizes_tests_before_accepting
    (font_sizes : list (Q * Z)) (s20 s14 s10 : Q) :
  ((s20 == 20)%Q -> (s14 == 14)%Q -> (s10 == 10)%Q ->
   Permutation font_sizes [(s20, 500); (s14, 1800); (s10, 5000)] ->
   App.select_sizes font_sizes = ([s20], 500))
  /\ snd (App.select_sizes font_sizes) <= App.max_words.
Proof.
  split.
  - intros H20 H14 H10 P.
    destruct (permutation_of_three _ _ _ _ P)
      as [-> | [-> | [-> | [-> | [-> | ->]]]]];
      unfold App.select_sizes, App.sorted;
      cbn [fold_right App.insert_by_key fst];
      sort_keys; reflexivity.
  - unfold App.select_sizes. apply select_loop_bound. unfold App.max_words. lia.
Qed.

Lemma select_sizes_tests_before_accepting_witness :
  App.select_sizes (App.count_words Sample.words_doc 1 1)
  = ([Sample.pt 20], 500).
Proof.
  apply (select_sizes_tests_before_accepting
           (App.count_words Sample.words_doc 1 1)
           (Sample.pt 20) (Sample.pt 14) (Sample.pt 10));
    [reflexivity | reflexivity | reflexivity |].
  vm_compute.
  exact (Permutation_cons_append
           [(Sample.pt 20, 500); (Sample.pt 14, 1800)] (Sample.pt 10, 5000)).
Defined.

(** C1 as stated fails: on the histogram of P5 the selected sizes are
    [[20]] with a total of 500 words, not [[20; 14]] with 2300. *)
Lemma select_sizes_rejects_size_14 :
  App.select_sizes Sample.histogram = ([Sample.pt 20], 500)
  /\ App.select_sizes Sample.histogram
     <> ([Sample.pt 20; Sample.pt 14], 2300).
Proof. split; [reflexivity | discriminate]. Qed.

(** The same through the first pass, on a page with those word counts: the
    text returned is the 500 words of size 20 only. *)
Example words_doc_selection :
  App.count_words Sample.words_doc 1 1
  = [(Sample.pt 10, 5000); (Sample.pt 20, 500); (Sample.pt 14, 1800)]
  /\ Spec.selected_sizes Sample.words_doc 1 1 = [Sample.pt 20]
  /\ App.extract_headings Sample.words_doc 1 1 = Sample.prose 500.
Proof.
  split; [vm_compute; reflexivity|]. split; vm_compute; reflexivity.
Qed.

(* ================================================================== *)
(** * More on the chapter store *)

Section StoreMore.

Import Db Spec.

(** What the insertion loop of [app1.py] has written when it ends. *)
Lemma save1_loop_written (chapters : list chapter) (rows : table) :
  for_each chapters
    (fun written chapter =>
       Py.bind written
         (fun rows =>
            insert rows (chapter_number chapter, title chapter,
                         start_page chapter, end_page chapter)))
    (Py.Ok rows)
  = if forallb storable chapters
    then Py.Ok (rows ++ map row_of chapters)
    else Py.Raise overflow.
Proof.
  unfold for_each. revert rows.
  induction chapters as [|c l IH]; intros rows; simpl.
  - now rewrite app_nil_r.
  - unfold insert. fold (storable c).
    destruct (storable c); simpl.
    + rewrite IH. fold (row_of c).
      destruct (forallb storable l); [|reflexivity].
      now rewrite <- app_assoc.
    + clear. induction l as [|x l IH]; [reflexivity | exact IH].
Qed.

(** What [save_chapters_to_db] of [app1.py] does: the records replace the
    rows of the table, unless one of them has a page that does not bind;
    then the call raises and the table stays. *)
Lemma save1_outcome (chapters : list chapter) (db : table) :
  App1.save_chapters_to_db chapters db =
  if forallb storable chapters
  then (map row_of chapters, None)
  else (db, Some overflow).
Proof.
  unfold App1.save_chapters_to_db. rewrite save1_loop_written.
  now destruct (forallb storable chapters).
Qed.

Lemma get1_rows (chapters : list chapter) :
  App1.get_chapters_from_db (map row_of chapters) = chapters.
Proof.
  unfold App1.get_chapters_from_db.
  induction chapters as [|c l IH]; simpl; [reflexivity|].
  rewrite IH. now destruct c.
Qed.

(** Reading back the rows of records gives the records with each page 0
    taken as absent. *)
Lemma load_of_rows (l : list chapter) :
  App.get_chapters_from_db (map row_of l) = map zero_absent l.
Proof.
  unfold App.get_chapters_from_db.
  rewrite map_map. apply map_ext. intros c.
  destruct c as [n t [[|p|p]|] [[|q|q]|]]; reflexivity.
Qed.

Lemma anchor_of_rows (l : list chapter) :
  App.get_first_chapter_start_page (map row_of l) =
  match l with
  | [] => Some 1
  | c :: _ => App.int_if (start_page c)
  end.
Proof. destruct l as [|c l]; reflexivity. Qed.

Lemma anchor_of_records (l : list chapter) :
  App.get_first_chapter_start_page (map row_of l) =
  match l with
  | [] => Some 1
  | c :: _ =>
      match start_page c with
      | Some 0 => None
      | p => p
      end
  end.
Proof.
  rewrite anchor_of_rows. destruct l as [|c l]; [reflexivity|].
  destruct (start_page c) as [[|p|p]|]; reflexivity.
Qed.

Lemma extract_chapter_by_anchor (db : table) (doc : Fitz.document)
      (s e f : Z) :
  App.extract_chapter db doc s e f =
  match App.get_first_chapter_start_page db with
  | Some d => Py.Ok (App.extract_headings doc (s + (f - d)) (e + (f - d)))
  | None =>
      Py.Raise
        (Py.TypeError "unsupported operand type(s) for -: 'int' and 'NoneType'")
  end.
Proof.
  unfold App.extract_chapter.
  now destruct (App.get_first_chapter_start_page db).
Qed.

(** On two pages that are present, the call of the button is the call on
    those integers. *)
Lemma extract_chapter_stored_pages (db : table) (doc : Fitz.document)
      (s e f : Z) :
  App.extract_chapter_stored db doc (Some s) (Some e) f
  = App.extract_chapter db doc s e f.
Proof.
  unfold App.extract_chapter_stored, App.extract_chapter, App.resolve.
  now destruct (App.get_first_chapter_start_page db).
Qed.

Lemma extract_chapter_stored_by_anchor (db : table) (doc : Fitz.document)
      (sp ep : option Z) (f : Z) :
  App.extract_chapter_stored db doc sp ep f =
  match App.get_first_chapter_start_page db with
  | None =>
      Py.Raise
        (Py.TypeError "unsupported operand type(s) for -: 'int' and 'NoneType'")
  | Some d =>
      match sp, ep with
      | Some s, Some e =>
          Py.Ok (App.extract_headings doc (s + (f - d)) (e + (f - d)))
      | _, _ =>
          Py.Raise
            (Py.TypeError
               "unsupported operand type(s) for +=: 'NoneType' and 'int'")
      end
  end.
Proof.
  unfold App.extract_chapter_stored.
  destruct (App.get_first_chapter_start_page db) as [d|]; [|reflexivity].
  now destruct sp as [s|], ep as [e|].
Qed.

End StoreMore.

(** X1.  In [app1.py] the store gives back what was saved: when
    [save_chapters_to_db(chapters)] returns, whatever the table held
    before, [get_chapters_from_db()] returns exactly [chapters], in order,
    the records without a page bound included.  The call returns when
    every page of [chapters] fits an INTEGER of SQLite; otherwise it raises
    [OverflowError] and the table, so what is read from it, stays as it
    was. *)
Theorem store1_round_trip (chapters : list Db.chapter) (db db' : Db.table)
    (raised : option Py.exn) :
  App1.save_chapters_to_db chapters db = (db', raised) ->
  match raised with
  | None =>
      forallb Spec.storable chapters = true
      /\ App1.get_chapters_from_db db' = chapters
  | Some err =>
      forallb Spec.storable chapters = false
      /\ err = Db.overflow
      /\ App1.get_chapters_from_db db' = App1.get_chapters_from_db db
  end.
Proof.
  rewrite save1_outcome.
  destruct (forallb Spec.storable chapters); intros H; injection H as <- <-.
  - split; [reflexivity | apply get1_rows].
  - repeat split.
Qed.

Lemma store1_round_trip_witness :
  App1.get_chapters_from_db
    (fst (App1.save_chapters_to_db
            [Sample.chapter_open; Sample.chapter_zero; Sample.chapter_A]
            [Spec.row_of Sample.chapter_B]))
  = [Sample.chapter_open; Sample.chapter_zero; Sample.chapter_A]
  /\ App1.get_chapters_from_db
       (fst (App1.save_chapters_to_db
               [Sample.chapter_A; Sample.chapter_huge]
               [Spec.row_of Sample.chapter_B]))
     = [Sample.chapter_B].
Proof.
  split.
  - apply (store1_round_trip
             [Sample.chapter_open; Sample.chapter_zero; Sample.chapter_A]
             [Spec.row_of Sample.chapter_B] _ None).
    reflexivity.
  - apply (store1_round_trip
             [Sample.chapter_A; Sample.chapter_huge]
             [Spec.row_of Sample.chapter_B] _ (Some Db.overflow)).
    reflexivity.
Defined.

(** X2.  In [app.py], after a [save_chapters_to_db(chapters)] that returned,
    the anchor that [get_first_chapter_start_page()] returns is the start
    page of the first record that has both page bounds, the records before
    it being skipped; it is 1 when no record has both bounds, and [None]
    when that start page is 0.  After a call that raised, which is
    [OverflowError] on a page that does not fit an INTEGER of SQLite, the
    anchor is what it was before the call. *)
Theorem anchor_after_save (chapters : list Db.chapter) (db db' : Db.table)
    (raised : option Py.exn) :
  App.save_chapters_to_db chapters db = (db', raised) ->
  match raised with
  | None =>
      App.get_first_chapter_start_page db' =
      match filter Spec.has_bounds chapters with
      | [] => Some 1
      | c :: _ =>
          match Db.start_page c with
          | Some 0 => None
          | p => p
          end
      end
  | Some err =>
      err = Db.overflow
      /\ forallb Spec.storable (filter Spec.has_bounds chapters) = false
      /\ App.get_first_chapter_start_page db'
         = App.get_first_chapter_start_page db
  end.
Proof.
  rewrite save_chapters_outcome.
  destruct (forallb Spec.storable (filter Spec.has_bounds chapters));
    intros H; injection H as <- <-.
  - apply anchor_of_records.
  - repeat split.
Qed.

Lemma anchor_after_save_witness :
  App.get_first_chapter_start_page
    (fst (App.save_chapters_to_db
            [Sample.chapter_open; Sample.chapter_B; Sample.chapter_A] []))
  = Some 11
  /\ App.get_first_chapter_start_page
       (fst (App.save_chapters_to_db
               [Sample.chapter_open; Sample.chapter_zero; Sample.chapter_A]
               []))
     = None
  /\ App.get_first_chapter_start_page
       (fst (App.save_chapters_to_db
               [Sample.chapter_huge] [Spec.row_of Sample.chapter_B]))
     = Some 11.
Proof.
  split; [|split].
  - apply (anchor_after_save
             [Sample.chapter_open; Sample.chapter_B; Sample.chapter_A] []
             _ None).
    reflexivity.
  - apply (anchor_after_save
             [Sample.chapter_open; Sample.chapter_zero; Sample.chapter_A] []
             _ None).
    reflexivity.
  - apply (anchor_after_save
             [Sample.chapter_huge] [Spec.row_of Sample.chapter_B]
             _ (Some Db.overflow)).
    reflexivity.
Defined.

(** X3.  In [app.py], after a [save_chapters_to_db(chapters)] that returned,
    the chapters the page offers are the records of [chapters] that have
    both page bounds, each with a page 0 read back as [None].  For such a
    record, [extract_chapter] called as the "Generate Lesson Plan" button
    calls it, on the two pages read back, raises [TypeError] exactly when
    the first record that has both page bounds starts on page 0, or the
    record itself starts or ends on page 0; in every other case it returns
    the headings of the shifted range. *)
Theorem stored_chapter_extraction_fails_on_page_zero
    (chapters : list Db.chapter) (db db' : Db.table) (doc : Fitz.document)
    (c : Db.chapter) (f : Z) :
  App.save_chapters_to_db chapters db = (db', None) ->
  In c (filter Spec.has_bounds chapters) ->
  (forall ch, In ch (App.get_chapters_from_db db') <->
              exists c', In c' (filter Spec.has_bounds chapters)
                         /\ ch = Spec.zero_absent c')
  /\ ((exists msg,
         App.extract_chapter_stored db' doc
           (Db.start_page (Spec.zero_absent c))
           (Db.end_page (Spec.zero_absent c)) f
         = Py.Raise (Py.TypeError msg))
      <->
      ((exists c0 rest,
          filter Spec.has_bounds chapters = c0 :: rest
          /\ Db.start_page c0 = Some 0)
       \/ Db.start_page c = Some 0
       \/ Db.end_page c = Some 0))
  /\ (forall c0 rest d s e,
        filter Spec.has_bounds chapters = c0 :: rest ->
        Db.start_page c0 = Some d -> d <> 0 ->
        Db.start_page c = Some s -> s <> 0 ->
        Db.end_page c = Some e -> e <> 0 ->
        App.extract_chapter_stored db' doc
          (Db.start_page (Spec.zero_absent c))
          (Db.end_page (Spec.zero_absent c)) f
        = Py.Ok (App.extract_headings doc (s + (f - d)) (e + (f - d)))).
Proof.
  intros Sv I. apply save_chapters_returned in Sv. subst db'.
  split; [|split].
  - intros ch. rewrite load_of_rows, in_map_iff.
    split; intros (c' & H1 & H2); exists c'; split; auto.
  - rewrite extract_chapter_stored_by_anchor, anchor_of_records.
    destruct (filter Spec.has_bounds chapters) as [|c0 rest] eqn:F;
      [contradiction|].
    assert (B : Spec.has_bounds c = true).
    { assert (I' : In c (filter Spec.has_bounds chapters))
        by (now rewrite F).
      now apply filter_In in I'. }
    assert (B0 : Spec.has_bounds c0 = true).
    { assert (I' : In c0 (filter Spec.has_bounds chapters))
        by (rewrite F; now left).
      now apply filter_In in I'. }
    unfold Spec.has_bounds in B, B0. unfold Spec.zero_absent.
    cbn [Db.start_page Db.end_page].
    destruct (Db.start_page c0) as [d|] eqn:S0; [|discriminate].
    destruct (Db.start_page c) as [s|]; [|discriminate].
    destruct (Db.end_page c) as [e|]; [|discriminate].
    clear B B0 I.
    split.
    + intros [msg H].
      destruct d as [|d|d];
        [left; exists c0, rest; now split | |];
        (destruct s as [|s|s]; [right; now left | |]);
        (destruct e as [|e|e]; [right; now right | |]);
        discriminate.
    + intros [(c1 & r1 & E & Z0) | [Z0 | Z0]].
      * injection E as <- _. rewrite S0 in Z0. injection Z0 as ->.
        eexists; reflexivity.
      * injection Z0 as ->.
        destruct d as [|d|d]; eexists; reflexivity.
      * injection Z0 as ->.
        destruct d as [|d|d], s as [|s|s]; eexists; reflexivity.
  - intros c0 rest d s e F S0 D Ss Ns Se Ne.
    rewrite extract_chapter_stored_by_anchor, anchor_of_records, F, S0.
    unfold Spec.zero_absent. cbn [Db.start_page Db.end_page].
    rewrite Ss, Se.
    destruct d as [|d|d]; [contradiction | |];
      (destruct s as [|s|s]; [contradiction | |]);
      (destruct e as [|e|e]; [contradiction | |]);
      reflexivity.
Qed.

Lemma stored_chapter_extraction_fails_on_page_zero_witness :
  In {| Db.chapter_number := "2"; Db.title := "Basics";
        Db.start_page := Some 12; Db.end_page := None |}
     (App.get_chapters_from_db
        (fst (App.save_chapters_to_db
                [Sample.chapter_A; Sample.chapter_ends_at_zero] [])))
  /\ exists msg,
       App.extract_chapter_stored
         (fst (App.save_chapters_to_db
                 [Sample.chapter_A; Sample.chapter_ends_at_zero] []))
         Sample.book (Some 12) None 2
       = Py.Raise (Py.TypeError msg).
Proof.
  destruct (stored_chapter_extraction_fails_on_page_zero
              [Sample.chapter_A; Sample.chapter_ends_at_zero] []
              (fst (App.save_chapters_to_db
                      [Sample.chapter_A; Sample.chapter_ends_at_zero] []))
              Sample.book Sample.chapter_ends_at_zero 2
              eq_refl (or_intror (or_introl eq_refl)))
    as (L & R & _).
  split.
  - apply L. exists Sample.chapter_ends_at_zero.
    split; [right; left; reflexivity | reflexivity].
  - apply R. right. right. reflexivity.
Defined.

(* ================================================================== *)
(** * More on TOC detection *)

Section NoMatch.

Import Py Json Spec.

(** The pattern of [app.py] needs a closing bracket. *)
Lemma bracket_needed (s : string) (pos : nat) :
  lacks "]" s = true -> search_from App.toc_pattern pos s = None.
Proof.
  revert pos. induction s as [|x s IH]; intros pos L.
  - reflexivity.
  - apply lacks_cons in L. destruct L as [_ L].
    rewrite search_from_eq. unfold App.toc_pattern at 1.
    rewrite match_one, (greedy_none "]" s L).
    replace (if accepts (Lit "[") x then option_map S None else None)
      with (@None nat) by now destruct (accepts (Lit "[") x).
    now apply IH.
Qed.

Lemma toc_pattern_no_match (pre rest : string) :
  lacks "[" pre = true ->
  lacks "]" rest = true ->
  search App.toc_pattern (pre ++ rest) = None.
Proof.
  intros L1 L2. unfold search, App.toc_pattern.
  rewrite (search_from_skip "[" _ pre rest L1).
  now rewrite (bracket_needed rest _ L2).
Qed.

End NoMatch.

(** X4.  [detect_toc] of [app.py], on a response that is not blank and in
    which no closing bracket comes after an opening one, finds no match: it
    shows "Error: No valid JSON found in response." and returns the empty
    list, and the decoder is not consulted. *)
Theorem detect_toc_no_bracket_pair
    (llm_invoke : string -> string)
    (json_loads : string -> option Json.value) (text pre rest : string) :
  llm_invoke (App.prompt text) = (pre ++ rest)%string ->
  Spec.blank (pre ++ rest) = false ->
  Spec.lacks "[" pre = true ->
  Spec.lacks "]" rest = true ->
  App.detect_toc llm_invoke json_loads text =
  (Json.VList [], ["Error: No valid JSON found in response."]).
Proof.
  intros E B L1 L2. unfold App.detect_toc.
  now rewrite E, truthy_strip, B, (toc_pattern_no_match pre rest L1 L2).
Qed.

Lemma detect_toc_no_bracket_pair_witness :
  App.detect_toc (fun _ => "1] Intro, page 1 [to be continued") Json.loads
    "Contents" =
  (Json.VList [], ["Error: No valid JSON found in response."]).
Proof.
  apply (detect_toc_no_bracket_pair _ Json.loads "Contents"
           "1] Intro, page 1 " "[to be continued");
    reflexivity.
Defined.

(* ================================================================== *)
(** * More on the second pass *)

Lemma span_in_range_inv (doc : Fitz.document) (s e : Z) (sp : Fitz.span) :
  In sp (Spec.spans_between doc s e) ->
  exists (i : nat) page block block_lines line,
    nth_error doc i = Some page
    /\ s <= Z.of_nat i + 1 <= e
    /\ In block (Fitz.get_text_blocks page)
    /\ Fitz.lines block = Some block_lines
    /\ In line block_lines
    /\ In sp (Fitz.spans line).
Proof.
  unfold Spec.spans_between. intros H.
  apply in_flat_map in H. destruct H as (page & Hp & H).
  apply pages_between_In in Hp. destruct Hp as (i & Hi & R).
  apply in_flat_map in H. destruct H as (block & Hb & H).
  unfold Spec.block_spans in H.
  destruct (Fitz.lines block) as [ls|] eqn:L; [|destruct H].
  apply in_flat_map in H. destruct H as (line & Hl & H).
  now exists i, page, block, ls, line.
Qed.

(** X5.  [extract_chapter]'s second pass emits nothing else than the spans
    that pass its test: the text returned is the newline join, in page,
    block, line, span order, of the texts of the spans of the range whose
    size is selected or that have a [color] or [bold] key; and each text
    collected is that of such a span, on a page of the range. *)
Theorem extract_headings_exact (doc : Fitz.document) (start_page end_page : Z) :
  let selected := Spec.selected_sizes doc start_page end_page in
  App.extract_headings doc start_page end_page =
  Py.join Py.newline
    (map Fitz.text
       (filter (App.keep selected)
               (Spec.spans_between doc start_page end_page)))
  /\ forall t,
       In t (App.collect doc start_page end_page selected) ->
       exists (i : nat) page block block_lines line sp,
         nth_error doc i = Some page
         /\ start_page <= Z.of_nat i + 1 <= end_page
         /\ In block (Fitz.get_text_blocks page)
         /\ Fitz.lines block = Some block_lines
         /\ In line block_lines
         /\ In sp (Fitz.spans line)
         /\ Fitz.text sp = t
         /\ (Spec.size_selected selected sp \/ Spec.styled sp).
Proof.
  intros selected. split.
  - now rewrite extract_headings_joined, collect_spans.
  - intros t H. rewrite collect_spans in H.
    apply in_map_iff in H. destruct H as (sp & <- & H).
    apply filter_In in H. destruct H as [I K].
    apply keep_iff in K.
    destruct (span_in_range_inv doc start_page end_page sp I)
      as (i & page & block & ls & line & H1 & H2 & H3 & H4 & H5 & H6).
    exists i, page, block, ls, line, sp. tauto.
Qed.

Lemma extract_headings_exact_witness :
  exists (i : nat) page block block_lines line sp,
    nth_error Sample.book i = Some page
    /\ 2 <= Z.of_nat i + 1 <= 3
    /\ In block (Fitz.get_text_blocks page)
    /\ Fitz.lines block = Some block_lines
    /\ In line block_lines
    /\ In sp (Fitz.spans line)
    /\ Fitz.text sp = "Sub"
    /\ (Spec.size_selected (Spec.selected_sizes Sample.book 2 3) sp
        \/ Spec.styled sp).
Proof.
  destruct (extract_headings_exact Sample.book 2 3) as [_ H].
  apply (H "Sub"). vm_compute. right. left. reflexivity.
Defined.

(* ================================================================== *)
(** * The first pass *)

Section LoopFacts.

Import Fitz Spec.

Variable S : Type.
Variable step : S -> span -> S.

Lemma fold_left_flat_map {A B : Type} (f : S -> B -> S) (g : A -> list B)
      (l : list A) (init : S) :
  fold_left f (flat_map g l) init
  = fold_left (fun st x => fold_left f (g x) st) l init.
Proof.
  revert init. induction l as [|x l IH]; intros init; simpl; [reflexivity|].
  now rewrite fold_left_app, IH.
Qed.

(** A guarded loop over the pages visits the pages of the range. *)
Lemma for_each_pages_from (F : S -> page -> S) (doc : document) (s e i : Z)
      (init : S) :
  for_each (enumerate_from i doc)
    (fun st (ip : Z * page) =>
       if App.in_range s e (fst ip) then F st (snd ip) else st)
    init
  = fold_left F (gathered (fun p => [p]) i doc s e) init.
Proof.
  unfold for_each, gathered. revert i init.
  induction doc as [|p doc IH]; intros i init; simpl; [reflexivity|].
  rewrite IH, fold_left_app.
  now destruct (App.in_range s e i).
Qed.

Lemma for_each_pages (F : S -> page -> S) (doc : document) (s e : Z)
      (init : S) :
  for_each (enumerate doc)
    (fun st '(i, page) => if App.in_range s e i then F st page else st)
    init
  = fold_left F (pages_between doc s e) init.
Proof.
  unfold enumerate.
  rewrite (for_each_ext _
             (fun st (ip : Z * page) =>
                if App.in_range s e (fst ip) then F st (snd ip) else st))
    by (intros st [i p]; reflexivity).
  rewrite for_each_pages_from, gathered_pages.
  now rewrite (map_as_flat_map (fun p : page => p)), map_id.
Qed.

(** The four nested loops of a pass visit the spans of the range in
    order. *)
Lemma for_each_spans (doc : document) (s e : Z) (init : S) :
  for_each (enumerate doc)
    (fun st '(i, page) =>
       if App.in_range s e i then
         for_each (get_text_blocks page)
           (fun st block =>
              match lines block with
              | Some block_lines =>
                  for_each block_lines
                    (fun st line => for_each (spans line) step st) st
              | None => st
              end)
           st
       else st)
    init
  = fold_left step (spans_between doc s e) init.
Proof.
  rewrite (for_each_pages
             (fun st page =>
                for_each (get_text_blocks page)
                  (fun st block =>
                     match lines block with
                     | Some block_lines =>
                         for_each block_lines
                           (fun st line => for_each (spans line) step st) st
                     | None => st
                     end)
                  st)).
  unfold spans_between. rewrite fold_left_flat_map.
  apply (for_each_ext _ _ (pages_between doc s e) init).
  intros st page. unfold for_each. rewrite fold_left_flat_map. revert st.
  induction (get_text_blocks page) as [|b bs IH]; intros st; simpl;
    [reflexivity|].
  rewrite IH. f_equal. unfold block_spans.
  destruct (lines b); [|reflexivity].
  now rewrite fold_left_flat_map.
Qed.

End LoopFacts.

Section HistogramFacts.

Import Fitz Spec.

Lemma count_words_fold (doc : document) (s e : Z) :
  App.count_words doc s e = fold_left add_span (spans_between doc s e) [].
Proof. unfold App.count_words. apply (for_each_spans _ add_span). Qed.

Lemma Qeq_bool_trans_l (a b c : Q) :
  Qeq_bool a b = true -> Qeq_bool a c = Qeq_bool b c.
Proof.
  intros H. apply Qeq_bool_iff in H.
  destruct (Qeq_bool b c) eqn:E.
  - apply Qeq_bool_iff in E. apply Qeq_bool_iff. now rewrite H.
  - destruct (Qeq_bool a c) eqn:E'; [|reflexivity].
    apply Qeq_bool_iff in E'. rewrite H in E'.
    apply Qeq_bool_iff in E'. congruence.
Qed.

Lemma Qeq_bool_trans_r (a b c : Q) :
  Qeq_bool b c = true -> Qeq_bool a b = Qeq_bool a c.
Proof.
  intros H. apply Qeq_bool_iff in H.
  destruct (Qeq_bool a c) eqn:E.
  - apply Qeq_bool_iff in E. apply Qeq_bool_iff. now rewrite H.
  - destruct (Qeq_bool a b) eqn:E'; [|reflexivity].
    apply Qeq_bool_iff in E'. rewrite H in E'.
    apply Qeq_bool_iff in E'. congruence.
Qed.

Lemma dict_get_key (d : list (Q * Z)) (k k' : Q) (default : Z) :
  Qeq_bool k k' = true ->
  App.dict_get d k default = App.dict_get d k' default.
Proof.
  intros H. induction d as [|[k0 v0] d IH]; simpl; [reflexivity|].
  now rewrite (Qeq_bool_trans_r k0 k k' H), IH.
Qed.

(** [d[k] = v] then [d.get(k', default)]. *)
Lemma dict_get_set (d : list (Q * Z)) (k k' : Q) (v default : Z) :
  App.dict_get (App.dict_set d k v) k' default =
  if Qeq_bool k k' then v else App.dict_get d k' default.
Proof.
  induction d as [|[k0 v0] d IH]; simpl; [reflexivity|].
  destruct (Qeq_bool k0 k) eqn:E; simpl.
  - rewrite (Qeq_bool_trans_l k0 k k' E). now destruct (Qeq_bool k k').
  - rewrite IH. destruct (Qeq_bool k0 k') eqn:E'; [|reflexivity].
    destruct (Qeq_bool k k') eqn:E''; [|reflexivity].
    rewrite (Qeq_bool_trans_r k0 k k' E'') in E. congruence.
Qed.

Lemma has_key_set (d : list (Q * Z)) (k k' : Q) (v : Z) :
  has_key (App.dict_set d k v) k' = has_key d k' || Qeq_bool k k'.
Proof.
  unfold has_key. induction d as [|[k0 v0] d IH]; simpl.
  - now rewrite orb_false_r.
  - destruct (Qeq_bool k0 k) eqn:E; simpl.
    + rewrite <- (Qeq_bool_trans_l k0 k k' E).
      destruct (Qeq_bool k0 k'); simpl; [reflexivity|].
      now rewrite orb_false_r.
    + rewrite IH. now rewrite orb_assoc.
Qed.

Lemma sum_words_set (d : list (Q * Z)) (k : Q) (w : Z) :
  sum_words (App.dict_set d k (App.dict_get d k 0 + w)) = sum_words d + w.
Proof.
  unfold sum_words.
  induction d as [|[k0 v0] d IH]; simpl; [lia|].
  destruct (Qeq_bool k0 k); simpl; [lia|]. rewrite IH. lia.
Qed.

Lemma dict_get_nonneg (d : list (Q * Z)) (k : Q) :
  Forall (fun kv => 0 <= snd kv) d -> 0 <= App.dict_get d k 0.
Proof.
  induction 1 as [|[k0 v0] d H _ IH]; simpl; [lia|].
  now destruct (Qeq_bool k0 k).
Qed.

Lemma dict_set_nonneg (d : list (Q * Z)) (k : Q) (v : Z) :
  0 <= v ->
  Forall (fun kv => 0 <= snd kv) d ->
  Forall (fun kv => 0 <= snd kv) (App.dict_set d k v).
Proof.
  intros Hv. induction 1 as [|[k0 v0] d H F IH]; simpl.
  - now constructor.
  - destruct (Qeq_bool k0 k); constructor; auto.
Qed.

Lemma span_words_nonneg (sp : span) : 0 <= span_words sp.
Proof. unfold span_words. lia. Qed.

(** The state of the histogram after a run of spans. *)
Lemma fold_add_span (l : list span) (d : list (Q * Z)) :
  (forall k,
     App.dict_get (fold_left add_span l d) k 0
     = App.dict_get d k 0 + words_of_size k l)
  /\ (forall k,
        has_key (fold_left add_span l d) k
        = has_key d k || existsb (fun sp => Qeq_bool (size sp) k) l)
  /\ sum_words (fold_left add_span l d) = sum_words d + total_words l
  /\ (Forall (fun kv => 0 <= snd kv) d ->
      Forall (fun kv => 0 <= snd kv) (fold_left add_span l d)).
Proof.
  revert d. induction l as [|sp l IH]; intros d.
  - simpl. repeat split; intros; try lia; try (now rewrite orb_false_r); auto.
  - destruct (IH (add_span d sp)) as (G & K & T & N). simpl fold_left.
    repeat split.
    + intros k. rewrite G. unfold add_span at 1. rewrite dict_get_set.
      simpl words_of_size.
      destruct (Qeq_bool (size sp) k) eqn:E; [|reflexivity].
      rewrite (dict_get_key d (size sp) k 0 E). lia.
    + intros k. rewrite K. unfold add_span at 1. rewrite has_key_set.
      simpl existsb. now rewrite orb_assoc.
    + rewrite T. unfold add_span at 1. rewrite sum_words_set.
      simpl total_words. lia.
    + intros F. apply N. unfold add_span. apply dict_set_nonneg; [|exact F].
      pose proof (dict_get_nonneg d (size sp) F).
      pose proof (span_words_nonneg sp). lia.
Qed.

End HistogramFacts.

(** X6.  The first pass of [extract_chapter] counts the words by font
    size: for every size [k], [font_sizes.get(k, 0)] is the number of words
    ([text.split()]) of the spans of the page range whose size equals [k];
    a size is a key exactly when a span of the range has it, and the counts
    add up to the number of words of the range. *)
Theorem count_words_by_size (doc : Fitz.document) (start_page end_page : Z)
        (k : Q) :
  let spans := Spec.spans_between doc start_page end_page in
  let font_sizes := App.count_words doc start_page end_page in
  App.dict_get font_sizes k 0 = Spec.words_of_size k spans
  /\ Spec.has_key font_sizes k
     = existsb (fun sp => Qeq_bool (Fitz.size sp) k) spans
  /\ Spec.sum_words font_sizes = Spec.total_words spans.
Proof.
  intros spans font_sizes. subst font_sizes spans. rewrite count_words_fold.
  destruct (fold_add_span (Spec.spans_between doc start_page end_page) [])
    as (G & K & T & _).
  split; [|split].
  - now rewrite G.
  - now rewrite K.
  - now rewrite T.
Qed.

(* ================================================================== *)
(** * More on the selection of sizes *)

Section SortFacts.

Import Spec.

Lemma insert_by_key_perm (x : Q * Z) (l : list (Q * Z)) :
  Permutation (App.insert_by_key x l) (x :: l).
Proof.
  induction l as [|y l IH]; simpl; [reflexivity|].
  destruct (Qle_bool (- fst x) (- fst y)); [reflexivity|].
  rewrite IH. apply perm_swap.
Qed.

Lemma sorted_perm (l : list (Q * Z)) : Permutation (App.sorted l) l.
Proof.
  unfold App.sorted. induction l as [|x l IH]; simpl; [reflexivity|].
  now rewrite insert_by_key_perm, IH.
Qed.

Lemma sort_key_order (x y : Q * Z) :
  Qle_bool (- fst x) (- fst y) = true <-> larger_first x y.
Proof.
  unfold larger_first. rewrite Qle_bool_iff. split; intros H.
  - apply Qopp_le_compat in H. now rewrite !Qopp_involutive in H.
  - now apply Qopp_le_compat.
Qed.

Lemma insert_by_key_sorted (x : Q * Z) (l : list (Q * Z)) :
  StronglySorted larger_first l ->
  StronglySorted larger_first (App.insert_by_key x l).
Proof.
  induction 1 as [|y l S IH F]; simpl.
  - constructor; constructor.
  - destruct (Qle_bool (- fst x) (- fst y)) eqn:E.
    + apply sort_key_order in E. constructor.
      * now constructor.
      * constructor; [exact E|].
        eapply Forall_impl; [|exact F].
        intros z Hz. unfold larger_first in *. now apply Qle_trans with (fst y).
    + constructor; [exact IH|].
      apply (Permutation_Forall (Permutation_sym (insert_by_key_perm x l))).
      constructor; [|exact F].
      unfold larger_first.
      destruct (Qlt_le_dec (fst x) (fst y)) as [L | L];
        [now apply Qlt_le_weak|].
      apply sort_key_order in L. congruence.
Qed.

(** [sorted] puts the larger sizes first. *)
Lemma sorted_sorted (l : list (Q * Z)) :
  StronglySorted larger_first (App.sorted l).
Proof.
  unfold App.sorted. induction l as [|x l IH]; simpl; [constructor|].
  now apply insert_by_key_sorted.
Qed.

Lemma sorted_app_order (a r : list (Q * Z)) :
  StronglySorted larger_first (a ++ r) ->
  forall x y, In x a -> In y r -> larger_first x y.
Proof.
  induction a as [|z a IH]; simpl; intros S x y Hx Hy; [destruct Hx|].
  inversion S as [|? ? S' F]; subst.
  destruct Hx as [-> | Hx].
  - rewrite Forall_forall in F. apply F, in_or_app. now right.
  - now apply IH.
Qed.

Lemma sum_words_app (a b : list (Q * Z)) :
  sum_words (a ++ b) = sum_words a + sum_words b.
Proof.
  unfold sum_words. induction a as [|x a IH]; simpl; [reflexivity|].
  rewrite IH. lia.
Qed.

Lemma sum_words_perm (a b : list (Q * Z)) :
  Permutation a b -> sum_words a = sum_words b.
Proof.
  unfold sum_words.
  induction 1; simpl; try lia.
Qed.

(** Where the selection loop stops. *)
Lemma select_loop_split (l : list (Q * Z)) (selected : list Q) (total : Z) :
  exists accepted rejected,
    l = accepted ++ rejected
    /\ App.select_loop l selected total
       = (selected ++ map fst accepted, total + sum_words accepted)
    /\ (rejected = []
        \/ exists kv rest,
             rejected = kv :: rest
             /\ App.max_words < total + sum_words accepted + snd kv).
Proof.
  revert selected total.
  induction l as [|[size words] l IH]; intros selected total.
  - exists [], []. simpl. rewrite app_nil_r, Z.add_0_r. auto.
  - simpl. destruct (Z.leb_spec (total + words) App.max_words) as [L | L].
    + destruct (IH (selected ++ [size]) (total + words))
        as (a & r & E & R & N).
      exists ((size, words) :: a), r. simpl.
      split; [now rewrite E|]. split.
      * rewrite R, <- app_assoc. simpl. f_equal.
        unfold sum_words. simpl. lia.
      * destruct N as [-> | (kv & rest & -> & N)]; [now left|].
        right. exists kv, rest. split; [reflexivity|].
        unfold sum_words in *. simpl. lia.
    + exists [], ((size, words) :: l). simpl.
      split; [reflexivity|]. split.
      * now rewrite app_nil_r, Z.add_0_r.
      * right. exists (size, words), l. split; [reflexivity|].
        simpl. lia.
Qed.

Lemma sum_words_nonneg (l : list (Q * Z)) :
  Forall (fun kv => 0 <= snd kv) l -> 0 <= sum_words l.
Proof.
  unfold sum_words. induction 1 as [|x l H _ IH]; simpl; lia.
Qed.

(** Within the budget, every size is accepted. *)
Lemma select_loop_all (l : list (Q * Z)) (selected : list Q) (total : Z) :
  Forall (fun kv => 0 <= snd kv) l ->
  total + sum_words l <= App.max_words ->
  App.select_loop l selected total
  = (selected ++ map fst l, total + sum_words l).
Proof.
  intros F. revert selected total.
  induction F as [|[size words] l H F IH]; intros selected total B; simpl.
  - now rewrite app_nil_r, Z.add_0_r.
  - pose proof (sum_words_nonneg l F) as N.
    unfold sum_words in B, N |- *. simpl in B, H |- *.
    destruct (Z.leb_spec (total + words) App.max_words) as [L | L]; [|lia].
    rewrite IH by (unfold sum_words; lia).
    rewrite <- app_assoc. simpl. f_equal. unfold sum_words. lia.
Qed.

End SortFacts.

(** X7.  The sizes [extract_chapter] selects are the largest ones: the
    entries of the histogram split into the accepted ones and the rejected
    ones, every accepted size being at least every rejected size; the total
    is the number of words of the accepted sizes; and when a size is
    rejected, the largest rejected size is one whose words would have taken
    the total over the budget of 2000 - the smaller sizes after it are not
    tried. *)
Theorem selection_takes_largest_sizes (font_sizes : list (Q * Z)) :
  exists accepted rejected,
    Permutation (accepted ++ rejected) font_sizes
    /\ App.select_sizes font_sizes
       = (map fst accepted, Spec.sum_words accepted)
    /\ (forall a r, In a accepted -> In r rejected -> (fst r <= fst a)%Q)
    /\ (rejected = []
        \/ exists kv rest,
             rejected = kv :: rest
             /\ App.max_words < Spec.sum_words accepted + snd kv
             /\ forall r, In r rest -> (fst r <= fst kv)%Q).
Proof.
  unfold App.select_sizes.
  destruct (select_loop_split (App.sorted font_sizes) [] 0)
    as (a & r & E & R & N).
  pose proof (sorted_sorted font_sizes) as S. rewrite E in S.
  exists a, r. split; [|split; [|split]].
  - rewrite <- E. apply sorted_perm.
  - exact R.
  - intros x y Hx Hy. exact (sorted_app_order a r S x y Hx Hy).
  - destruct N as [-> | (kv & rest & -> & N)]; [now left|].
    right. exists kv, rest. split; [reflexivity|]. split; [lia|].
    intros z Hz.
    assert (S' : StronglySorted Spec.larger_first (kv :: rest)).
    { clear - S. induction a as [|x a IH]; [exact S|].
      inversion S; subst. now apply IH. }
    inversion S' as [|? ? _ F]; subst.
    rewrite Forall_forall in F. now apply F.
Qed.

(** X8.  A chapter of at most 2000 words is returned whole: when the spans
    of the page range hold at most 2000 words in all, every size is
    selected and [extract_chapter] returns the texts of all the spans of
    the range, joined by newlines. *)
Theorem short_chapter_returned_whole
    (doc : Fitz.document) (start_page end_page : Z) :
  Spec.total_words (Spec.spans_between doc start_page end_page)
  <= App.max_words ->
  App.extract_headings doc start_page end_page =
  Py.join Py.newline
    (map Fitz.text (Spec.spans_between doc start_page end_page)).
Proof.
  intros B.
  rewrite extract_headings_joined, collect_spans.
  do 2 f_equal. apply filter_all, forallb_forall.
  intros sp I. unfold App.keep.
  assert (K : existsb (fun s => Qeq_bool s (Fitz.size sp))
                (Spec.selected_sizes doc start_page end_page) = true);
    [|now rewrite K].
  unfold Spec.selected_sizes, App.select_sizes.
  rewrite count_words_fold.
  destruct (fold_add_span (Spec.spans_between doc start_page end_page) [])
    as (_ & H & T & N).
  set (fs := fold_left Spec.add_span
               (Spec.spans_between doc start_page end_page) []) in *.
  assert (F : Forall (fun kv => 0 <= snd kv) (App.sorted fs)).
  { apply (Permutation_Forall (Permutation_sym (sorted_perm fs))).
    apply N. constructor. }
  rewrite select_loop_all; [|exact F|].
  - simpl fst. rewrite existsb_exists.
    assert (Hk : Spec.has_key fs (Fitz.size sp) = true).
    { rewrite H. simpl. apply existsb_exists. exists sp.
      split; [exact I | apply Qeq_bool_iff; reflexivity]. }
    unfold Spec.has_key in Hk. apply existsb_exists in Hk.
    destruct Hk as (kv & Hin & Hq).
    exists (fst kv). split; [|exact Hq].
    apply in_map.
    apply (Permutation_in _ (Permutation_sym (sorted_perm fs)) Hin).
  - rewrite (sum_words_perm _ _ (sorted_perm fs)), T.
    unfold Spec.sum_words at 1. simpl. lia.
Qed.

Lemma short_chapter_returned_whole_witness :
  App.extract_headings Sample.book 3 3 =
  Py.join Py.newline (map Fitz.text (Spec.spans_between Sample.book 3 3)).
Proof.
  apply (short_chapter_returned_whole Sample.book 3 3).
  vm_compute. discriminate.
Defined.

(* ================================================================== *)
(** * Words and chunks *)

Section WordFacts.

Import Py Spec.

Lemma rev_string_twice (acc w : string) :
  rev_string "" (rev_string acc w) = rev_string w acc.
Proof.
  revert acc. induction w as [|c w IH]; intros acc; simpl; [reflexivity|].
  now rewrite IH.
Qed.

Lemma all_chars_rev (p : ascii -> bool) (acc s : string) :
  all_chars p (rev_string acc s) = all_chars p acc && all_chars p s.
Proof.
  revert acc. induction s as [|c s IH]; intros acc; simpl.
  - now rewrite andb_true_r.
  - rewrite IH. simpl.
    destruct (p c), (all_chars p acc), (all_chars p s); reflexivity.
Qed.

Lemma rev_string_nonempty (acc s : string) :
  acc <> "" -> rev_string acc s <> "".
Proof.
  revert acc. induction s as [|c s IH]; intros acc H; simpl; [exact H|].
  apply IH. discriminate.
Qed.

Lemma flush_word (c : ascii) (cur : string) (k : list string) :
  flush (String c cur) k = rev_string "" (String c cur) :: k.
Proof. reflexivity. Qed.

Lemma split_from_word (cur w s : string) :
  all_chars (fun c => negb (isspace c)) w = true ->
  split_from cur (w ++ s) = split_from (rev_string cur w) s.
Proof.
  revert cur. induction w as [|c w IH]; intros cur H; simpl; [reflexivity|].
  simpl in H. apply andb_true_iff in H. destruct H as [Hc H].
  apply negb_true_iff in Hc. rewrite Hc. now apply IH.
Qed.

Lemma split_word_then (w rest : string) :
  wordlike w ->
  split_from "" (w ++ String " " rest) = w :: split_from "" rest.
Proof.
  intros [N A]. rewrite (split_from_word "" w _ A). simpl.
  destruct w as [|c w]; [contradiction|].
  simpl rev_string.
  destruct (rev_string (String c "") w) eqn:R.
  - exfalso. revert R. apply rev_string_nonempty. discriminate.
  - rewrite flush_word, <- R.
    change (rev_string (String c "") w) with (rev_string "" (String c w)).
    now rewrite rev_string_twice.
Qed.

Lemma split_word (w : string) : wordlike w -> split w = [w].
Proof.
  intros [N A]. unfold split.
  rewrite <- (append_empty_r w) at 1.
  rewrite (split_from_word "" w _ A). simpl.
  destruct w as [|c w]; [contradiction|].
  simpl rev_string.
  destruct (rev_string (String c "") w) eqn:R.
  - exfalso. revert R. apply rev_string_nonempty. discriminate.
  - rewrite flush_word, <- R.
    change (rev_string (String c "") w) with (rev_string "" (String c w)).
    now rewrite rev_string_twice.
Qed.

(** Words joined by spaces split back into the same words. *)
Lemma split_join (ws : list string) :
  Forall wordlike ws -> split (join " " ws) = ws.
Proof.
  unfold join. induction 1 as [|w ws Hw F IH]; [reflexivity|].
  destruct ws as [|w' ws].
  - simpl. now apply split_word.
  - change (String.concat " " (w :: w' :: ws))
      with (w ++ String " " (String.concat " " (w' :: ws)))%string.
    unfold split in *. rewrite (split_word_then _ _ Hw). now rewrite IH.
Qed.

Lemma split_from_wordlike (cur s : string) :
  all_chars (fun c => negb (isspace c)) cur = true ->
  Forall wordlike (split_from cur s).
Proof.
  assert (Fl : forall cur k,
             all_chars (fun c => negb (isspace c)) cur = true ->
             Forall wordlike k -> Forall wordlike (flush cur k)).
  { intros [|c cur'] k A K; [exact K|].
    rewrite flush_word. constructor; [|exact K]. split.
    - simpl. apply rev_string_nonempty. discriminate.
    - now rewrite all_chars_rev. }
  revert cur. induction s as [|c s IH]; intros cur A; simpl.
  - apply Fl; [exact A | constructor].
  - destruct (isspace c) eqn:E.
    + apply Fl; [exact A | now apply IH].
    + apply IH. simpl. now rewrite E.
Qed.

(** [text.split()] gives words. *)
Lemma split_wordlike (s : string) : Forall wordlike (split s).
Proof. now apply split_from_wordlike. Qed.

Lemma split_blank (s : string) : blank s = true -> split s = [].
Proof.
  unfold blank, split. induction s as [|c s IH]; simpl; [reflexivity|].
  intros H. apply andb_true_iff in H. destruct H as [Hc H].
  rewrite Hc. simpl. now apply IH.
Qed.

End WordFacts.

Section ChunkFacts.

Variable A : Type.
Variable k : nat.
Hypothesis k_positive : (0 < k)%nat.

Lemma ceiling_bounds (n : nat) :
  (n <= (n + k - 1) / k * k)%nat
  /\ (forall j, j < (n + k - 1) / k -> j * k < n)%nat.
Proof.
  pose proof (Nat.div_mod_eq (n + k - 1) k) as D.
  pose proof (Nat.mod_upper_bound (n + k - 1) k) as U.
  set (q := ((n + k - 1) / k)%nat) in *.
  set (r := ((n + k - 1) mod k)%nat) in *.
  split; [nia|].
  intros j Hj. nia.
Qed.

(** Consecutive slices of [k] items make up the list. *)
Lemma slices_concat (m : nat) (l : list A) :
  (List.length l <= m * k)%nat ->
  List.concat (map (fun j => firstn k (skipn (j * k) l)) (seq 0 m)) = l.
Proof.
  revert l. induction m as [|m IH]; intros l H.
  - destruct l; [reflexivity | simpl in H; lia].
  - simpl seq. rewrite <- seq_shift, map_cons, map_map. simpl List.concat.
    rewrite (map_ext _ (fun j => firstn k (skipn (j * k) (skipn k l)))).
    + rewrite IH; [apply firstn_skipn|].
      rewrite length_skipn. simpl in H. lia.
    + intros j. rewrite skipn_skipn. do 2 f_equal. lia.
Qed.

End ChunkFacts.

Section LessonPlanFacts.

Import Py Spec.

Lemma Forall_firstn_skipn {A : Type} (P : A -> Prop) (n i : nat)
      (l : list A) :
  Forall P l -> Forall P (firstn n (skipn i l)).
Proof.
  intros F.
  assert (Sk : Forall P (skipn i l)).
  { revert i. induction F as [|x l Hx F IH]; intros [|i]; simpl;
      try constructor; auto. }
  revert n. induction Sk as [|x l' Hx Sk IH]; intros [|n]; simpl;
    constructor; auto.
Qed.

Lemma max_chunk_size_positive : (0 < App.max_chunk_size)%nat.
Proof. apply Nat.lt_0_succ. Qed.

(** The chunks, as slices of the list of words. *)
Lemma chunks_of_slices (words : list string) :
  App.chunks_of words =
  map (fun j => join " " (firstn App.max_chunk_size
                                 (skipn (j * App.max_chunk_size) words)))
      (seq 0 ((List.length words + App.max_chunk_size - 1)
              / App.max_chunk_size)).
Proof. unfold App.chunks_of, range. now rewrite map_map. Qed.

End LessonPlanFacts.

(** X9.  [get_lesson_plan] of [app.py] cuts the chapter text into chunks
    that lose and repeat nothing: the words of the chunks, taken in order,
    are the words of the chapter text; every chunk holds at least one word
    and at most 2000; and there are as many chunks as the number of words
    divided by 2000, rounded up. *)
Theorem chunks_partition_words (chapter_text : string) :
  let words := Py.split chapter_text in
  let chunks := App.chunks_of words in
  List.concat (map Py.split chunks) = words
  /\ Forall (fun chunk =>
               (1 <= List.length (Py.split chunk) <= App.max_chunk_size)%nat)
            chunks
  /\ List.length chunks
     = ((List.length words + App.max_chunk_size - 1) / App.max_chunk_size)%nat.
Proof.
  intros words chunks. subst chunks. rewrite chunks_of_slices.
  pose proof max_chunk_size_positive as P.
  pose proof (split_wordlike chapter_text) as W. fold words in W.
  set (K := App.max_chunk_size) in *. clearbody K.
  destruct (ceiling_bounds K P (List.length words)) as [B1 B2].
  assert (E : forall j,
             Py.split (Py.join " " (firstn K (skipn (j * K) words)))
             = firstn K (skipn (j * K) words))
    by (intros j; apply split_join; now apply Forall_firstn_skipn).
  split; [|split].
  - rewrite map_map, (map_ext _ _ E). now apply slices_concat.
  - apply Forall_forall. intros chunk H.
    apply in_map_iff in H. destruct H as (j & <- & H).
    apply in_seq in H. rewrite E, length_firstn, length_skipn.
    pose proof (B2 j ltac:(lia)). lia.
  - now rewrite length_map, length_seq.
Qed.

Section SplitJoinFacts.

Import Py Spec.

Variable sep : string.
Hypothesis sep_not_empty : sep <> "".

Lemma rev_string_acc (acc s : string) :
  rev_string acc s = (rev_string "" s ++ acc)%string.
Proof.
  revert acc. induction s as [|c s IH]; intros acc; simpl; [reflexivity|].
  rewrite IH, (IH (String c "")). now rewrite append_assoc.
Qed.

Lemma prefix_split (a b : string) :
  prefix a b = true -> exists r, b = (a ++ r)%string.
Proof.
  revert b. induction a as [|x a IH]; intros b H.
  - now exists b.
  - destruct b as [|y b]; simpl in H; [discriminate|].
    destruct (Ascii.ascii_dec x y) as [-> | N]; [|discriminate].
    destruct (IH b H) as [r ->]. now exists r.
Qed.

Lemma split_on_skip (t : string) (cur s : string) :
  split_on_from sep (String.length t) cur (t ++ s)
  = split_on_from sep O cur s.
Proof. induction t as [|c t IH]; simpl; [reflexivity | exact IH]. Qed.

Lemma split_on_not_nil (skip : nat) (cur s : string) :
  split_on_from sep skip cur s <> [].
Proof.
  revert skip cur.
  induction s as [|c s IH]; intros skip cur; cbn [split_on_from].
  - discriminate.
  - destruct skip; [|apply IH].
    destruct (prefix sep (String c s)); [discriminate | apply IH].
Qed.

Lemma join_cons (x : string) (l : list string) :
  l <> [] -> join sep (x :: l) = (x ++ sep ++ join sep l)%string.
Proof. destruct l; [contradiction | reflexivity]. Qed.

Lemma split_on_from_join (n : nat) (s cur : string) :
  (String.length s <= n)%nat ->
  join sep (split_on_from sep O cur s) = (rev_string "" cur ++ s)%string.
Proof.
  revert s cur. induction n as [|n IH]; intros s cur H.
  - destruct s; [|simpl in H; lia]. simpl. now rewrite append_empty_r.
  - destruct s as [|c s]; [simpl; now rewrite append_empty_r|].
    cbn [split_on_from].
    destruct (prefix sep (String c s)) eqn:P.
    + destruct (prefix_split _ _ P) as [r E].
      assert (T : exists tail, sep = String c tail /\ s = (tail ++ r)%string).
      { clear - E sep_not_empty. destruct sep as [|a tail]; [contradiction|].
        simpl in E. injection E as -> ->. now exists tail. }
      destruct T as (tail & Es & ->).
      replace (String.length sep - 1)%nat with (String.length tail)
        by (rewrite Es; simpl; lia).
      rewrite split_on_skip.
      rewrite join_cons by apply split_on_not_nil.
      rewrite IH.
      * simpl. rewrite Es. reflexivity.
      * simpl in H. rewrite length_append in H. lia.
    + rewrite IH by (simpl in H; lia).
      simpl. rewrite (rev_string_acc (String c "")).
      now rewrite append_assoc.
Qed.

(** [sep.join(s.split(sep)) == s] *)
Lemma split_on_join (s : string) : join sep (split_on sep s) = s.
Proof. unfold split_on. now rewrite (split_on_from_join (String.length s)). Qed.

Lemma join_app (a b : list string) :
  a <> [] -> b <> [] ->
  join sep (a ++ b) = (join sep a ++ sep ++ join sep b)%string.
Proof.
  intros Ha Hb. induction a as [|x a IH]; [contradiction|].
  destruct a as [|y a].
  - simpl app. now rewrite join_cons.
  - change ((x :: y :: a) ++ b) with (x :: ((y :: a) ++ b)).
    rewrite join_cons by discriminate.
    rewrite IH by discriminate.
    rewrite (join_cons x (y :: a)) by discriminate.
    now rewrite !append_assoc.
Qed.

(** Splitting each text and joining all the pieces gives the join of the
    texts. *)
Lemma join_split_all (texts : list string) :
  join sep (List.concat (map (split_on sep) texts)) = join sep texts.
Proof.
  induction texts as [|t texts IH]; [reflexivity|].
  simpl List.concat. destruct texts as [|u texts].
  - simpl. rewrite app_nil_r. apply split_on_join.
  - rewrite join_app.
    + rewrite IH, split_on_join.
      now rewrite (join_cons t (u :: texts)) by discriminate.
    + apply split_on_not_nil.
    + simpl. intros H. apply app_eq_nil in H. destruct H as [H _].
      revert H. apply split_on_not_nil.
Qed.

End SplitJoinFacts.

Section PlanFacts.

Import Py Spec.

Variable llm_invoke : list string -> string -> string.

Lemma subtopics_loop_state (chunks subtopics sent : list string) :
  fold_left
    (fun (state : list string * list string) chunk =>
       let '(extracted_subtopics, sent) := state in
       let prompt := App.subtopics_prompt chunk in
       let response := llm_invoke sent prompt in
       let subtopics := split_on newline (strip response) in
       (extracted_subtopics ++ subtopics, sent ++ [prompt]))
    chunks (subtopics, sent)
  = (subtopics
     ++ List.concat (map (split_on newline) (answers llm_invoke chunks sent)),
     sent ++ map App.subtopics_prompt chunks).
Proof.
  revert subtopics sent.
  induction chunks as [|c chunks IH]; intros subtopics sent; simpl.
  - now rewrite !app_nil_r.
  - rewrite IH, <- !app_assoc. reflexivity.
Qed.

End PlanFacts.

(** X10.  [get_lesson_plan] of [app.py] calls the model once for each
    chunk, with the subtopics prompt of that chunk, in order, and then once
    with the final prompt, whose subtopics are the stripped answers to the
    chunk prompts, joined by newlines; what it returns is the stripped
    answer to that last call.  On a chapter text that is blank there is no
    chunk: the only call is the final one, made with no subtopic at all. *)
Theorem get_lesson_plan_calls
    (llm_invoke : list string -> string -> string)
    (chapter_text : string) (num_periods : Z) (class_level : string) :
  let chunks := App.chunks_of (Py.split chapter_text) in
  (let prompt :=
     App.final_prompt num_periods class_level
       (Py.join Py.newline (Spec.answers llm_invoke chunks [])) in
   App.get_lesson_plan llm_invoke chapter_text num_periods class_level
   = (Py.strip (llm_invoke (map App.subtopics_prompt chunks) prompt),
      map App.subtopics_prompt chunks ++ [prompt]))
  /\ (Spec.blank chapter_text = true ->
      let prompt := App.final_prompt num_periods class_level "" in
      App.get_lesson_plan llm_invoke chapter_text num_periods class_level
      = (Py.strip (llm_invoke [] prompt), [prompt])).
Proof.
  intros chunks.
  assert (G : let prompt :=
                App.final_prompt num_periods class_level
                  (Py.join Py.newline (Spec.answers llm_invoke chunks [])) in
              App.get_lesson_plan llm_invoke chapter_text num_periods
                class_level
              = (Py.strip (llm_invoke (map App.subtopics_prompt chunks) prompt),
                 map App.subtopics_prompt chunks ++ [prompt])).
  { unfold App.get_lesson_plan, App.subtopics_loop, for_each. fold chunks.
    rewrite subtopics_loop_state. simpl app.
    rewrite join_split_all; [reflexivity | discriminate]. }
  split; [exact G|].
  intros B. rewrite G. subst chunks.
  rewrite (split_blank _ B).
  assert (E : App.chunks_of [] = []).
  { unfold App.chunks_of, Py.range. simpl List.length.
    rewrite Nat.div_small; [reflexivity|].
    pose proof max_chunk_size_positive. lia. }
  rewrite E. reflexivity.
Qed.

Lemma get_lesson_plan_calls_witness :
  App.get_lesson_plan (fun _ _ => " | 1 | nothing | ") "   " 5 "7th Grade"
  = ("| 1 | nothing |", [App.final_prompt 5 "7th Grade" ""]).
Proof.
  destruct (get_lesson_plan_calls (fun _ _ => " | 1 | nothing | ") "   " 5
              "7th Grade") as [_ H].
  apply H. reflexivity.
Defined.

(* ================================================================== *)
(** * [app1.py]: page text and chapter text *)

Section App1Facts.

Import Py.

Lemma pages_loop_unbounded (max_pages : option Z)
      (pages : list (Z * Fitz.page)) (text : list string) :
  max_pages = None \/ max_pages = Some 0 ->
  App1.pages_loop max_pages pages text
  = text ++ map (fun ip => Fitz.get_text_text (snd ip)) pages.
Proof.
  intros H. revert text.
  induction pages as [|[i p] pages IH]; intros text; simpl.
  - now rewrite app_nil_r.
  - destruct H as [-> | ->]; simpl; rewrite IH; auto;
      now rewrite <- app_assoc.
Qed.

Lemma pages_loop_bounded (n : Z) (doc : Fitz.document) (i : Z)
      (text : list string) :
  n <> 0 ->
  0 <= i ->
  App1.pages_loop (Some n) (enumerate_from i doc) text
  = text ++ map Fitz.get_text_text (firstn (Z.to_nat (n - i)) doc).
Proof.
  intros N. revert i text.
  induction doc as [|p doc IH]; intros i text Hi; simpl.
  - now rewrite firstn_nil, app_nil_r.
  - destruct (Z.eqb_spec n 0) as [|_]; [contradiction|]. simpl.
    destruct (Z.leb_spec n i) as [L | L].
    + replace (Z.to_nat (n - i)) with O by lia. simpl.
      now rewrite app_nil_r.
    + rewrite IH by lia.
      replace (Z.to_nat (n - i)) with (S (Z.to_nat (n - (i + 1)))) by lia.
      simpl. now rewrite <- app_assoc.
Qed.

Lemma enumerate_snd {A : Type} (i : Z) (l : list A) :
  map snd (enumerate_from i l) = l.
Proof.
  revert i. induction l as [|x l IH]; intros i; simpl; [reflexivity|].
  now rewrite IH.
Qed.

(** [l[a:b]] with indices that are not negative. *)
Lemma slice_from_front {A : Type} (l : list A) (a b : Z) :
  0 <= a -> 0 <= b ->
  slice l a b = firstn (Z.to_nat (b - a)) (skipn (Z.to_nat a) l).
Proof.
  intros Ha Hb. unfold slice, slice_index.
  destruct (Z.ltb_spec a 0); [lia|]. destruct (Z.ltb_spec b 0); [lia|].
  set (n := Z.of_nat (List.length l)).
  destruct (Z.le_gt_cases n a) as [L | L].
  - rewrite !skipn_all2 by lia. now rewrite !firstn_nil.
  - rewrite (Z.min_l a n) by lia.
    destruct (Z.le_gt_cases n b) as [L' | L'].
    + rewrite (Z.min_r b n) by lia.
      rewrite !firstn_all2; [reflexivity | |]; rewrite length_skipn; lia.
    + now rewrite (Z.min_l b n) by lia.
Qed.

End App1Facts.

(** X11.  [extract_text_from_pdf] of [app1.py] joins by newlines the texts
    of the first [max_pages] pages; with [max_pages] absent, or equal to 0,
    it joins the texts of all the pages, and with a negative [max_pages] it
    returns the empty string. *)
Theorem extract_text1_max_pages (doc : Fitz.document) (max_pages : option Z) :
  App1.extract_text_from_pdf doc max_pages =
  Py.join Py.newline
    (map Fitz.get_text_text
       match max_pages with
       | None | Some 0 => doc
       | Some n => firstn (Z.to_nat n) doc
       end).
Proof.
  unfold App1.extract_text_from_pdf, enumerate. f_equal.
  destruct max_pages as [n|].
  - destruct (Z.eq_dec n 0) as [-> | N].
    + rewrite pages_loop_unbounded by now right.
      simpl. now rewrite <- map_map, enumerate_snd.
    + rewrite (pages_loop_bounded n doc 0 [] N) by lia.
      rewrite Z.sub_0_r. simpl. now destruct n.
  - rewrite pages_loop_unbounded by now left.
    simpl. now rewrite <- map_map, enumerate_snd.
Qed.

(** X12.  [extract_chapter] of [app1.py] moves both stored pages by 8 and
    reads the text as pieces separated by blank lines, numbered from 0: for
    stored pages [s] and [e] not below -8, it returns the pieces [s + 8] to
    [e + 8], joined by newlines; the result is empty when [e < s] or when
    there are no more than [s + 8] pieces; and a stored page that is absent
    makes it raise [TypeError]. *)
Theorem extract_chapter1_slice (text : string) (s e : Z) :
  let pieces := Py.split_on (Py.newline ++ Py.newline) text in
  (-8 <= s -> -8 <= e ->
   App1.extract_chapter text (Some s) (Some e) =
   Py.Ok (Py.join Py.newline
            (firstn (Z.to_nat (e - s + 1)) (skipn (Z.to_nat (s + 8)) pieces)))
   /\ (e < s \/ Z.of_nat (List.length pieces) <= s + 8 ->
       App1.extract_chapter text (Some s) (Some e) = Py.Ok ""))
  /\ (forall start_page end_page,
        start_page = None \/ end_page = None ->
        exists msg,
          App1.extract_chapter text start_page end_page
          = Py.Raise (Py.TypeError msg)).
Proof.
  intros pieces. split.
  - intros Hs He.
    assert (E : App1.extract_chapter text (Some s) (Some e) =
                Py.Ok (Py.join Py.newline
                         (firstn (Z.to_nat (e - s + 1))
                                 (skipn (Z.to_nat (s + 8)) pieces)))).
    { unfold App1.extract_chapter. simpl. fold pieces.
      rewrite slice_from_front by lia.
      now replace (e + 8 + 1 - (s + 8)) with (e - s + 1) by lia. }
    split; [exact E|].
    intros [H | H]; rewrite E.
    + now replace (Z.to_nat (e - s + 1)) with O by lia.
    + rewrite skipn_all2 by lia. now rewrite firstn_nil.
  - intros start_page end_page [-> | ->].
    + eexists. reflexivity.
    + destruct start_page; eexists; reflexivity.
Qed.

Lemma extract_chapter1_slice_witness :
  App1.extract_chapter "a" (Some 1) (Some 2) = Py.Ok ""
  /\ exists msg,
       App1.extract_chapter "a" (Some 1) None = Py.Raise (Py.TypeError msg).
Proof.
  destruct (extract_chapter1_slice "a" 1 2) as [H1 H2].
  split.
  - apply H1; [lia | lia |]. right. simpl. lia.
  - apply H2. now right.
Defined.

(* ================================================================== *)
(** * The budget *)

Section BudgetFacts.

Import Fitz Spec.

Lemma has_key_perm (a b : list (Q * Z)) (k : Q) :
  Permutation a b -> has_key a k = has_key b k.
Proof.
  unfold has_key. induction 1 as [| x l l' P IH | x y l | l l' l'' P1 IH1 P2 IH2];
    simpl.
  - reflexivity.
  - now rewrite IH.
  - now rewrite !orb_assoc, (orb_comm (Qeq_bool (fst y) k)).
  - congruence.
Qed.

Lemma distinct_keys_perm (a b : list (Q * Z)) :
  Permutation a b -> distinct_keys a -> distinct_keys b.
Proof.
  induction 1 as [| x l l' P IH | x y l | l l' l'' P1 IH1 P2 IH2]; simpl.
  - auto.
  - intros [H D]. split; [|now apply IH].
    now rewrite <- (has_key_perm _ _ _ P).
  - unfold has_key. simpl. intros [H1 [H2 D]].
    apply orb_false_iff in H1. destruct H1 as [H1 H1'].
    repeat split; try assumption.
    apply orb_false_iff. split; [|assumption].
    now rewrite Qeq_bool_comm.
  - auto.
Qed.

Lemma distinct_keys_app (a r : list (Q * Z)) :
  distinct_keys (a ++ r) -> distinct_keys a.
Proof.
  induction a as [|x a IH]; simpl; [auto|].
  intros [H D]. split; [|now apply IH].
  unfold has_key in *. rewrite existsb_app in H.
  now apply orb_false_iff in H.
Qed.

Lemma dict_set_distinct (d : list (Q * Z)) (k : Q) (v : Z) :
  distinct_keys d -> distinct_keys (App.dict_set d k v).
Proof.
  induction d as [|[k0 v0] d IH]; simpl.
  - intros _. now split.
  - intros [H D]. destruct (Qeq_bool k0 k) eqn:E; simpl.
    + now split.
    + split; [|now apply IH].
      rewrite has_key_set, H. simpl. now rewrite Qeq_bool_comm.
Qed.

Lemma fold_add_span_distinct (l : list span) (d : list (Q * Z)) :
  distinct_keys d -> distinct_keys (fold_left add_span l d).
Proof.
  revert d. induction l as [|sp l IH]; intros d D; simpl; [exact D|].
  apply IH. unfold add_span. now apply dict_set_distinct.
Qed.

(** In a dict, the value of an entry is what its key gives. *)
Lemma dict_get_entry (d : list (Q * Z)) (k : Q) (v : Z) :
  distinct_keys d -> In (k, v) d -> App.dict_get d k 0 = v.
Proof.
  induction d as [|[k0 v0] d IH]; simpl; [tauto|].
  intros [H D] [E | I].
  - injection E as -> ->. now rewrite Qeq_bool_refl.
  - destruct (Qeq_bool k0 k) eqn:E; [|now apply IH].
    exfalso. unfold has_key in H.
    assert (X : existsb (fun kv => Qeq_bool (fst kv) k0) d = true);
      [|congruence].
    apply existsb_exists. exists (k, v). split; [exact I|].
    simpl. now rewrite Qeq_bool_comm.
Qed.

(** Sizes that differ pairwise count disjoint sets of spans. *)
Lemma words_of_sizes_cons (k : Q) (sizes : list Q) (l : list span) :
  existsb (fun s => Qeq_bool s k) sizes = false ->
  words_of_sizes (k :: sizes) l = words_of_size k l + words_of_sizes sizes l.
Proof.
  intros N. unfold words_of_sizes, words_of_size.
  induction l as [|sp l IH]; [reflexivity|].
  cbn [fold_right]. rewrite IH. cbn [existsb].
  rewrite (Qeq_bool_comm (size sp) k).
  destruct (Qeq_bool k (size sp)) eqn:E; cbn [orb].
  - replace (existsb (fun s => Qeq_bool s (size sp)) sizes) with false;
      [lia|].
    symmetry. apply not_true_is_false. intros X.
    apply existsb_exists in X. destruct X as (s & Hs & Q).
    assert (Y : existsb (fun s => Qeq_bool s k) sizes = true);
      [|congruence].
    apply existsb_exists. exists s. split; [exact Hs|].
    apply (Qeq_bool_trans s (size sp) k Q). now apply Qeq_bool_sym.
  - destruct (existsb (fun s => Qeq_bool s (size sp)) sizes); lia.
Qed.

Lemma words_of_accepted (fs accepted : list (Q * Z)) (l : list span) :
  distinct_keys accepted ->
  (forall k v, In (k, v) accepted -> v = words_of_size k l) ->
  words_of_sizes (map fst accepted) l = sum_words accepted.
Proof.
  induction accepted as [|[k v] a IH]; simpl; intros D V.
  - unfold words_of_sizes, sum_words. simpl. clear.
    induction l as [|sp l IHl]; simpl; [reflexivity | exact IHl].
  - destruct D as [H D]. rewrite words_of_sizes_cons.
    + rewrite IH; auto. unfold sum_words. simpl.
      rewrite <- (V k v) by now left. reflexivity.
    + unfold has_key in H. simpl in H. rewrite <- H.
      clear. induction a as [|x a IH]; simpl; congruence.
Qed.

End BudgetFacts.

(** X13.  The text that [extract_chapter] keeps for its size stays within
    the budget: the words of the spans of the page range whose size is
    selected number exactly the total the selection loop accumulated, which
    is at most 2000. *)
Theorem size_selected_words_within_budget
    (doc : Fitz.document) (start_page end_page : Z) :
  let spans := Spec.spans_between doc start_page end_page in
  Spec.words_of_sizes (Spec.selected_sizes doc start_page end_page) spans
  = snd (App.select_sizes (App.count_words doc start_page end_page))
  /\ Spec.words_of_sizes (Spec.selected_sizes doc start_page end_page) spans
     <= App.max_words.
Proof.
  intros spans.
  assert (E : Spec.words_of_sizes
                (Spec.selected_sizes doc start_page end_page) spans
              = snd (App.select_sizes
                       (App.count_words doc start_page end_page))).
  { unfold Spec.selected_sizes, App.select_sizes.
    set (fs := App.count_words doc start_page end_page).
    destruct (select_loop_split (App.sorted fs) [] 0) as (a & r & S & R & _).
    rewrite R. simpl fst. simpl snd.
    assert (D : Spec.distinct_keys fs).
    { subst fs. rewrite count_words_fold.
      now apply fold_add_span_distinct. }
    assert (Ds : Spec.distinct_keys (a ++ r)).
    { rewrite <- S.
      exact (distinct_keys_perm _ _ (Permutation_sym (sorted_perm fs)) D). }
    apply (words_of_accepted fs).
    - exact (distinct_keys_app a r Ds).
    - intros k v I.
      assert (If : In (k, v) fs).
      { apply (Permutation_in _ (sorted_perm fs)). rewrite S.
        apply in_or_app. now left. }
      rewrite <- (dict_get_entry fs k v D If). subst fs.
      rewrite count_words_fold.
      destruct (fold_add_span spans []) as (G & _). now rewrite G. }
  split; [exact E|].
  rewrite E. unfold App.select_sizes. apply select_loop_bound.
  unfold App.max_words. lia.
Qed.

(* ================================================================== *)
(** * Reading the store back *)

(** X14.  In [app.py], what [get_chapters_from_db()] returns after a
    [save_chapters_to_db(chapters)] that returned is, in order, the records
    of [chapters] that have both page bounds, with their number and title
    unchanged and each page number unchanged too, except that a page
    number 0 comes back as absent.  After a call that raised, which is
    [OverflowError] on a page that does not fit an INTEGER of SQLite, it
    returns what it returned before the call. *)
Theorem load_after_save (chapters : list Db.chapter) (db db' : Db.table)
    (raised : option Py.exn) :
  App.save_chapters_to_db chapters db = (db', raised) ->
  match raised with
  | None =>
      forallb Spec.storable (filter Spec.has_bounds chapters) = true
      /\ App.get_chapters_from_db db'
         = map Spec.zero_absent (filter Spec.has_bounds chapters)
  | Some err =>
      forallb Spec.storable (filter Spec.has_bounds chapters) = false
      /\ err = Db.overflow
      /\ App.get_chapters_from_db db' = App.get_chapters_from_db db
  end.
Proof.
  rewrite save_chapters_outcome.
  destruct (forallb Spec.storable (filter Spec.has_bounds chapters));
    intros H; injection H as <- <-.
  - split; [reflexivity | apply load_of_rows].
  - repeat split.
Qed.

Lemma load_after_save_witness :
  App.get_chapters_from_db
    (fst (App.save_chapters_to_db
            [Sample.chapter_open; Sample.chapter_zero; Sample.chapter_A]
            [Spec.row_of Sample.chapter_B]))
  = [ {| Db.chapter_number := "0"; Db.title := "Preface";
         Db.start_page := None; Db.end_page := Some 4 |};
      Sample.chapter_A ]
  /\ App.get_chapters_from_db
       (fst (App.save_chapters_to_db
               [Sample.chapter_A; Sample.chapter_huge]
               [Spec.row_of Sample.chapter_B]))
     = [Sample.chapter_B].
Proof.
  split.
  - apply (load_after_save
             [Sample.chapter_open; Sample.chapter_zero; Sample.chapter_A]
             [Spec.row_of Sample.chapter_B] _ None).
    reflexivity.
  - apply (load_after_save
             [Sample.chapter_A; Sample.chapter_huge]
             [Spec.row_of Sample.chapter_B] _ (Some Db.overflow)).
    reflexivity.
Defined.
